(** * Query validation and filter search of the Plausible MCP server

    Two revisions of the filter-membership search live in the repository:
    - [Utils]: [src/src/utils.ts], whose simple filters are written
      dimension-first ([dimension, operator, value]) and whose behavioral
      filters are 3-tuples ([has_done, type, value]);
    - [Legacy]: the single-file server [src/unnamed/part_003], whose simple
      filters are written operator-first ([operator, dimension, values,
      options?]) and whose behavioral filters wrap a simple filter; this
      file also holds the parameter validator [validateAllParameters].

    Filters reach these functions as loosely typed JSON arrays, so both are
    embedded over a small model of JavaScript values. *)

From Stdlib Require Import String Ascii List ZArith Bool Lia.
Import ListNotations.
Open Scope list_scope.
Open Scope string_scope.
Set Warnings "-register-all".

(** ** JavaScript values *)

(** The JSON-shaped values a filter can be built from.  Numbers are the
    integers of the inputs (segment ids); [JObj] is a plain object such as
    the [{case_sensitive: ...}] options of a simple filter, which has no
    index or [length] property. *)
Inductive jval : Type :=
| JUndefined
| JNull
| JBool (b : bool)
| JNum (n : Z)
| JStr (s : string)
| JArr (xs : list jval)
| JObj.

(** Induction principle for the nested arrays. *)
Section JvalInd.
  Variable P : jval -> Prop.
  Hypothesis HUndefined : P JUndefined.
  Hypothesis HNull : P JNull.
  Hypothesis HBool : forall b, P (JBool b).
  Hypothesis HNum : forall n, P (JNum n).
  Hypothesis HStr : forall s, P (JStr s).
  Hypothesis HArr : forall xs, Forall P xs -> P (JArr xs).
  Hypothesis HObj : P JObj.

Fixpoint jval_ind' (v : jval) : P v :=
    match v with
    | JUndefined => HUndefined
    | JNull => HNull
    | JBool b => HBool b
    | JNum n => HNum n
    | JStr s => HStr s
    | JArr xs =>
        HArr xs
          ((fix all (l : list jval) : Forall P l :=
              match l with
              | [] => Forall_nil P
              | x :: l' => Forall_cons x (jval_ind' x) (all l')
              end) xs)
    | JObj => HObj
    end.
End JvalInd.

(** [Array.isArray]. *)
Definition js_is_array (v : jval) : bool :=
  match v with JArr _ => true | _ => false end.

(** [typeof v === 'string']. *)
Definition js_is_string (v : jval) : bool :=
  match v with JStr _ => true | _ => false end.

(** [v === s] for a string literal or string variable [s]. *)
Definition js_eq_str (v : jval) (s : string) : bool :=
  match v with JStr s' => String.eqb s' s | _ => false end.

(** Element [i] of an array, [undefined] past its end. *)
Definition arr_at (xs : list jval) (i : nat) : jval := nth i xs JUndefined.

(** Decimal digits of a non-negative integer ([Number.prototype.toString]). *)
Definition digit_char (d : Z) : ascii := ascii_of_nat (48 + Z.to_nat d).

Fixpoint digits_aux (fuel : nat) (n : Z) (acc : string) : string :=
  match fuel with
  | O => acc
  | S fuel' =>
      let acc' := String (digit_char (n mod 10)) acc in
      if Z.ltb n 10 then acc' else digits_aux fuel' (n / 10) acc'
  end.

Definition Z_to_dec (n : Z) : string :=
  if Z.ltb n 0 then "-" ++ digits_aux (Pos.size_nat (Z.to_pos (- n))) (- n) ""
  else digits_aux (Pos.size_nat (Z.to_pos n)) n "".

(** [String(v)], as used by a template literal [`...${v}...`]; array
    elements that are [undefined] or [null] print as the empty string
    ([Array.prototype.join]). *)
Fixpoint js_to_string (v : jval) : string :=
  match v with
  | JUndefined => "undefined"
  | JNull => "null"
  | JBool b => if b then "true" else "false"
  | JNum n => Z_to_dec n
  | JStr s => s
  | JArr xs =>
      (fix join (l : list jval) : string :=
         match l with
         | [] => ""
         | [x] => match x with
                  | JUndefined | JNull => ""
                  | _ => js_to_string x
                  end
         | x :: l' => match x with
                      | JUndefined | JNull => ""
                      | _ => js_to_string x
                      end ++ "," ++ join l'
         end) xs
  | JObj => "[object Object]"
  end.

(** ** The search of [src/src/utils.ts] *)
Module Utils.

(** [checkSimpleFilter]: [const [filterDimension] = filter;
    return filterDimension === dimension;] *)
Definition checkSimpleFilter (filter : list jval) (dimension : string) : bool :=
  js_eq_str (arr_at filter 0) dimension.

(** [checkBehavioralFilter]: [const [, type] = filter;
    return dimension === `event:${type}`;] *)
Definition checkBehavioralFilter (filter : list jval) (dimension : string) : bool :=
  String.eqb dimension ("event:" ++ js_to_string (arr_at filter 1)).

(** [checkSingleFilter]. *)
Fixpoint checkSingleFilter (filter : jval) (dimension : string) {struct filter} : bool :=
  match filter with
  | JArr [_; JArr nestedFilters] =>
      (* logical filter [operator, [...filters]]: nestedFilters.some(...) *)
      (fix some (l : list jval) : bool :=
         match l with
         | [] => false
         | f :: l' => checkSingleFilter f dimension || some l'
         end) nestedFilters
  | JArr ([f0; _; _] as xs) =>
      if js_eq_str f0 "has_done" || js_eq_str f0 "has_not_done" then
        checkBehavioralFilter xs dimension
      else if js_is_string f0 then checkSimpleFilter xs dimension
      else false
  | _ => false
  end.

(** [hasFilterForDimension(filters?, dimension?)]. *)
Definition hasFilterForDimension (filters : option (list jval))
    (dimension : option string) : bool :=
  match filters, dimension with
  | Some fs, Some d =>
      if String.eqb d "" then false
      else existsb (fun filter => checkSingleFilter filter d) fs
  | _, _ => false
  end.

End Utils.

(** ** Errors and the throwing computations of [src/unnamed/part_003] *)

(** [class ValidationError extends Error { constructor(message, public details?) }] *)
Record ValidationError : Type := mkValidationError {
  message : string;
  details : option string
}.

(** What the code can throw: a [ValidationError] raised by a rule, or the
    [TypeError] the runtime raises when a property is read from [undefined]
    or [null], or a method is missing. *)
Inductive exn : Type :=
| TypeError
| ValidationErr (e : ValidationError).

Inductive result (A : Type) : Type :=
| Ok (a : A)
| Throw (e : exn).
Arguments Ok {A} a.
Arguments Throw {A} e.

Definition bind {A B : Type} (m : result A) (k : A -> result B) : result B :=
  match m with
  | Ok a => k a
  | Throw e => Throw e
  end.

Notation "'let*' x ':=' m 'in' k" := (bind m (fun x => k))
  (at level 200, x name, m at level 100, k at level 200).

(** [v[i]] for an integer index [i]: a [TypeError] on [undefined] and [null],
    the element of an array, the one-character string of a string, and
    [undefined] on any other value. *)
Definition js_index (v : jval) (i : nat) : result jval :=
  match v with
  | JUndefined | JNull => Throw TypeError
  | JArr xs => Ok (arr_at xs i)
  | JStr s =>
      match String.get i s with
      | Some c => Ok (JStr (String c EmptyString))
      | None => Ok JUndefined
      end
  | JBool _ | JNum _ | JObj => Ok JUndefined
  end.

Module Legacy.

(** [checkSimpleFilter]: [return filter[1] === dimension;] *)
Definition checkSimpleFilter (filter : jval) (dimension : string) : result bool :=
  let* f1 := js_index filter 1 in
  Ok (js_eq_str f1 dimension).

(** [checkBehavioralFilter]: [return filter[1][1] === dimension;] *)
Definition checkBehavioralFilter (filter : jval) (dimension : string) : result bool :=
  let* f1 := js_index filter 1 in
  let* f11 := js_index f1 1 in
  Ok (js_eq_str f11 dimension).

(** The body of [checkSingleFilter] once [operator = filter[0]] is read;
    [viaLogical] is [hasFilterForDimension(filter[1], dimension)] and
    [viaNot] is [hasFilterForDimension([filter[1]], dimension)]. *)
Definition singleFilterCases (filter operator : jval) (viaLogical viaNot : result bool)
    (dimension : string) : result bool :=
  if js_eq_str operator "and" || js_eq_str operator "or" then viaLogical
  else if js_eq_str operator "not" then viaNot
  else if js_eq_str operator "has_done" || js_eq_str operator "has_not_done" then
    checkBehavioralFilter filter dimension
  else if js_eq_str operator "is" then
    let* f1 := js_index filter 1 in
    if js_eq_str f1 "segment" then Ok false (* Skip segment filters *)
    else checkSimpleFilter filter dimension
  else checkSimpleFilter filter dimension.

(** [hasFilterForDimension] on a value that is not an array:
    [filters === undefined] gives [false]; otherwise [filters.length] is read
    (a [TypeError] on [null]) and, unless it is [0] (the empty string),
    [filters.some] is called, which only arrays have. *)
Definition hasFilterForDimension_scalar (filters : jval) (dimension : string) : result bool :=
  match filters with
  | JUndefined => Ok false
  | JStr s => if Nat.eqb (String.length s) 0 then Ok false else Throw TypeError
  | _ => Throw TypeError
  end.

(** [checkSingleFilter] on a value that is not an array: [filter[0]] is
    [undefined] or a string of at most one character (a [TypeError] on
    [undefined] and [null]), so none of the operator tests holds and the
    node is read as a simple filter. *)
Definition checkSingleFilter_scalar (filter : jval) (dimension : string) : result bool :=
  let* operator := js_index filter 0 in
  checkSimpleFilter filter dimension.

(** [checkSingleFilter] and [hasFilterForDimension]. *)
Fixpoint checkSingleFilter (filter : jval) (dimension : string) {struct filter} : result bool :=
  match filter with
  | JArr xs =>
      let operator := arr_at xs 0 in
      match xs with
      | _ :: x1 :: _ =>
          singleFilterCases filter operator
            (hasFilterForDimension x1 dimension) (checkSingleFilter x1 dimension) dimension
      | _ =>
          singleFilterCases filter operator
            (hasFilterForDimension_scalar JUndefined dimension)
            (checkSingleFilter_scalar JUndefined dimension) dimension
      end
  | _ => checkSingleFilter_scalar filter dimension
  end
with hasFilterForDimension (filters : jval) (dimension : string) {struct filters} : result bool :=
  match filters with
  | JArr fs =>
      if Nat.eqb (List.length fs) 0 then Ok false
      else
        (fix some (l : list jval) : result bool :=
           match l with
           | [] => Ok false
           | f :: l' =>
               let* found := checkSingleFilter f dimension in
               if found then Ok true else some l'
           end) fs
  | _ => hasFilterForDimension_scalar filters dimension
  end.

End Legacy.

(** ** Dates: [new Date(s)] on the strings of a custom date range *)

Open Scope Z_scope.

Definition digit_val (c : ascii) : option Z :=
  let n := nat_of_ascii c in
  if (48 <=? n)%nat && (n <=? 57)%nat then Some (Z.of_nat n - 48)%Z else None.

(** The date-only form [YYYY-MM-DD] of the ECMAScript date-time string
    format, as (year, month, day). *)
Definition parse_ymd (s : string) : option (Z * Z * Z) :=
  match list_ascii_of_string s with
  | [y1; y2; y3; y4; "-"%char; m1; m2; "-"%char; d1; d2] =>
      match digit_val y1, digit_val y2, digit_val y3, digit_val y4,
            digit_val m1, digit_val m2, digit_val d1, digit_val d2 with
      | Some a, Some b, Some c, Some d, Some e, Some f, Some g, Some h =>
          Some ((1000 * a + 100 * b + 10 * c + d)%Z, (10 * e + f)%Z, (10 * g + h)%Z)
      | _, _, _, _, _, _, _, _ => None
      end
  | _ => None
  end.

(** ECMAScript [DayFromYear], [DaysInYear] and the month table of [MakeDay]
    (months numbered from 1). *)
Definition DayFromYear (y : Z) : Z :=
  365 * (y - 1970) + (y - 1969) / 4 - (y - 1901) / 100 + (y - 1601) / 400.

Definition InLeapYear (y : Z) : bool :=
  ((y mod 4 =? 0) && negb (y mod 100 =? 0)) || (y mod 400 =? 0).

Definition DaysInMonth (y m : Z) : Z :=
  nth (Z.to_nat (m - 1)) [31; 28; 31; 30; 31; 30; 31; 31; 30; 31; 30; 31]%Z 0%Z
  + (if InLeapYear y && (m =? 2) then 1 else 0).

Definition DaysBeforeMonth (y m : Z) : Z :=
  nth (Z.to_nat (m - 1)) [0; 31; 59; 90; 120; 151; 181; 212; 243; 273; 304; 334]%Z 0%Z
  + (if InLeapYear y && (3 <=? m) then 1 else 0).

Definition valid_ymd (y m d : Z) : bool :=
  (0 <=? y) && (y <=? 9999) && (1 <=? m) && (m <=? 12) && (1 <=? d) && (d <=? DaysInMonth y m).

Definition msPerDay : Z := 86400000.

(** The time value of a valid date-only string (UTC midnight). *)
Definition MakeDate_ymd (y m d : Z) : Z :=
  (DayFromYear y + DaysBeforeMonth y m + d - 1) * msPerDay.

(** The day number of a date, and the number of days of a year. *)
Definition day_number (y m d : Z) : Z := DayFromYear y + DaysBeforeMonth y m + d - 1.

Definition DaysInYear (y : Z) : Z := if InLeapYear y then 366 else 365.

Section Validation.

(** How [Date] parses any string that is not a valid [YYYY-MM-DD] date:
    the standard leaves such strings (other forms, out-of-range fields) to
    the implementation; [None] is an invalid date (a [NaN] time value). *)
Variable parse_fallback : string -> option Z.

(** [new Date(s).getTime()], [None] standing for [NaN]. *)
Definition Date_parse (s : string) : option Z :=
  match parse_ymd s with
  | Some (y, m, d) => if valid_ymd y m d then Some (MakeDate_ymd y m d) else parse_fallback s
  | None => parse_fallback s
  end.

(** [new Date(x)] for [x] a string or [undefined] ([NaN]). *)
Definition new_Date (x : option string) : option Z :=
  match x with
  | Some s => Date_parse s
  | None => None
  end.

(** [date_range: string | [string, string]] *)
Inductive DateRange : Type :=
| DRString (s : string)
| DRArray (xs : list string).

Definition throw_validation {A : Type} (msg det : string) : result A :=
  Throw (ValidationErr (mkValidationError msg (Some det))).

(** [validateDateRange] *)
Definition validateDateRange (dateRange : DateRange) : result unit :=
  match dateRange with
  | DRString _ => Ok tt
  | DRArray xs =>
      let start := nth_error xs 0 in
      let end_ := nth_error xs 1 in
      match new_Date start, new_Date end_ with
      | Some startDate, Some endDate =>
          if (endDate <=? startDate)%Z then
            throw_validation "Invalid date range"
              ("Start date (" ++ js_to_string (match start with Some s => JStr s | None => JUndefined end)
               ++ ") must be before end date ("
               ++ js_to_string (match end_ with Some s => JStr s | None => JUndefined end) ++ ")")
          else Ok tt
      | _, _ =>
          throw_validation "Invalid date format in date range"
            "Custom date ranges must be in ISO8601 format (YYYY-MM-DD or YYYY-MM-DDTHH:mm:ss+TZ:TZ)"
      end
  end.


(** [Array.prototype.includes] on a list of strings. *)
Definition includes (xs : list string) (x : string) : bool := existsb (String.eqb x) xs.

(** [xs.join(sep)] *)
Definition join (sep : string) (xs : list string) : string := String.concat sep xs.

(** [s.startsWith(prefix)] *)
Definition startsWith (s prefix : string) : bool := String.prefix prefix s.

(** [dimensions?.some(p) ?? false] *)
Definition dims_some (dimensions : option (list string)) (p : string -> bool) : bool :=
  match dimensions with
  | Some ds => existsb p ds
  | None => false
  end.

(** [sessionMetrics] of the constants module ([constants.js], appended to
    [src/src/client.ts]):
    [export const sessionMetrics = ['bounce_rate', 'views_per_visit', 'visit_duration'] as const;] *)
Definition sessionMetrics : list string := ["bounce_rate"; "views_per_visit"; "visit_duration"].

(** The [filters] argument, [undefined] or an array. *)
Definition filters_jval (filters : option (list jval)) : jval :=
  match filters with
  | None => JUndefined
  | Some fs => JArr fs
  end.

(** [validatePercentageMetric] *)
Definition validatePercentageMetric (metrics : list string)
    (dimensions : option (list string)) : result unit :=
  if includes metrics "percentage"
     && match dimensions with None => true | Some ds => Nat.eqb (length ds) 0 end then
    throw_validation "Metric 'percentage' requires dimensions"
      "The 'percentage' metric calculates the percentage of visitors in each dimension group and requires at least one dimension to be specified."
  else Ok tt.

(** [validatePageMetrics] *)
Definition validatePageMetrics (metrics : list string) (dimensions : option (list string))
    (filters : option (list jval)) : result unit :=
  let pageMetrics := List.filter (includes ["scroll_depth"; "time_on_page"]) metrics in
  if Nat.ltb 0 (length pageMetrics) then
    let hasPageDimension := dims_some dimensions (fun d => String.eqb d "event:page") in
    let* hasPageFilter := Legacy.hasFilterForDimension (filters_jval filters) "event:page" in
    if negb hasPageDimension && negb hasPageFilter then
      throw_validation ("Metrics " ++ join ", " pageMetrics ++ " require event:page")
        "These metrics require either an 'event:page' dimension or filter to calculate page-specific metrics."
    else Ok tt
  else Ok tt.

(** [validateGoalMetrics] *)
Definition validateGoalMetrics (metrics : list string) (dimensions : option (list string))
    (filters : option (list jval)) : result unit :=
  let goalMetrics := List.filter (includes ["conversion_rate"; "group_conversion_rate"]) metrics in
  if Nat.ltb 0 (length goalMetrics) then
    let hasGoalDimension := dims_some dimensions (fun d => String.eqb d "event:goal") in
    let* hasGoalFilter := Legacy.hasFilterForDimension (filters_jval filters) "event:goal" in
    if negb hasGoalDimension && negb hasGoalFilter then
      throw_validation ("Metrics " ++ join ", " goalMetrics ++ " require event:goal")
        "These metrics require either an 'event:goal' dimension or filter. You need to set up goals in Plausible first."
    else Ok tt
  else Ok tt.

(** [validateRevenueMetrics] *)
Definition validateRevenueMetrics (metrics : list string) (dimensions : option (list string))
    (filters : option (list jval)) : result unit :=
  let revenueMetrics := List.filter (includes ["average_revenue"; "total_revenue"]) metrics in
  if Nat.ltb 0 (length revenueMetrics) then
    let hasGoalDimension := dims_some dimensions (fun d => String.eqb d "event:goal") in
    let* hasGoalFilter := Legacy.hasFilterForDimension (filters_jval filters) "event:goal" in
    if negb hasGoalDimension && negb hasGoalFilter then
      throw_validation ("Metrics " ++ join ", " revenueMetrics ++ " require revenue goal")
        "Revenue metrics require a revenue goal to be specified. Ensure you have revenue goals configured in Plausible and use an 'event:goal' dimension or filter."
    else Ok tt
  else Ok tt.

(** [validateMetricRequirements] *)
Definition validateMetricRequirements (metrics : list string) (dimensions : option (list string))
    (filters : option (list jval)) : result unit :=
  let* _ := validatePercentageMetric metrics dimensions in
  let* _ := validatePageMetrics metrics dimensions filters in
  let* _ := validateGoalMetrics metrics dimensions filters in
  validateRevenueMetrics metrics dimensions filters.

(** [validateSessionMetricsWithEventDimensions] *)
Definition validateSessionMetricsWithEventDimensions (metrics : list string)
    (dimensions : option (list string)) : result unit :=
  let hasSessionMetrics := existsb (includes sessionMetrics) metrics in
  let hasEventDimensions :=
    dims_some dimensions (fun d => startsWith d "event:" || startsWith d "time:") in
  if hasSessionMetrics && hasEventDimensions then
    let sessionMetricsUsed := List.filter (includes sessionMetrics) metrics in
    let eventDimensionsUsed :=
      match dimensions with
      | Some ds => List.filter (fun d => startsWith d "event:") ds
      | None => []
      end in
    throw_validation "Session metrics cannot be mixed with event dimensions"
      ("Session metrics (" ++ join ", " sessionMetricsUsed
       ++ ") calculate values per visit/session and cannot be used with event-level dimensions ("
       ++ join ", " eventDimensionsUsed ++ "). Use visit dimensions instead.")
  else Ok tt.

(** [include?: { imports?, time_labels?, total_rows? }] *)
Record Include : Type := mkInclude {
  imports : option bool;
  time_labels : option bool;
  total_rows : option bool
}.

(** [validateTimeLabelRequirements] *)
Definition validateTimeLabelRequirements (include : option Include)
    (dimensions : option (list string)) : result unit :=
  match include with
  | Some i =>
      match time_labels i with
      | Some true =>
          let ds := match dimensions with Some ds => ds | None => [] end in
          let hasTimeDimension :=
            existsb (fun d => String.eqb d "time" || startsWith d "time:") ds in
          if negb hasTimeDimension then
            throw_validation "time_labels requires a time dimension"
              "The 'include.time_labels' option requires a time dimension (e.g., 'time', 'time:day', 'time:hour') to generate time labels."
          else Ok tt
      | _ => Ok tt
      end
  | None => Ok tt
  end.

(** The [params] object of [validateAllParameters]. *)
Record Params : Type := mkParams {
  metrics : list string;
  dimensions : option (list string);
  filters : option (list jval);
  include : option Include;
  dateRange : DateRange
}.

(** [try { body; return null; } catch (error) { if (error instanceof
    ValidationError) return error; throw error; }] *)
Definition catchValidation (body : result unit) : result (option ValidationError) :=
  match body with
  | Ok _ => Ok None
  | Throw (ValidationErr e) => Ok (Some e)
  | Throw e => Throw e
  end.

(** [validateAllParameters]: the rules run in sequence inside a [try]; a
    [ValidationError] is caught and returned, [null] ([None]) when no rule
    throws, and any other exception is rethrown. *)
Definition validateAllParameters (params : Params) : result (option ValidationError) :=
  catchValidation
    (let* _ := validateDateRange (dateRange params) in
     let* _ := validateMetricRequirements (metrics params) (dimensions params) (filters params) in
     let* _ := validateSessionMetricsWithEventDimensions (metrics params) (dimensions params) in
     let* _ := validateTimeLabelRequirements (include params) (dimensions params) in
     Ok tt).

End Validation.

Close Scope Z_scope.

(** ** Typed filters and their JSON layouts *)

(** The filter types of [src/unnamed/part_003] ([FilterType]), with
    [not] wrapping a single child as [checkSingleFilter] reads it. *)
Inductive lfilter : Type :=
| LSimple (operator dimension : string) (values : list string) (options : bool)
| LLogical (operator : string) (children : list lfilter)
| LNot (child : lfilter)
| LBehavioral (operator : string) (inner_operator inner_dimension : string)
    (inner_values : list string) (inner_options : bool)
| LSegment (ids : list Z).

(** [[operator, dimension, values]] or [[operator, dimension, values,
    {case_sensitive}]]. *)
Definition lenc_simple (op dim : string) (values : list string) (options : bool) : jval :=
  JArr ([JStr op; JStr dim; JArr (map JStr values)] ++ (if options then [JObj] else [])).

Fixpoint lenc (f : lfilter) : jval :=
  match f with
  | LSimple op dim vs o => lenc_simple op dim vs o
  | LLogical op cs => JArr [JStr op; JArr (map lenc cs)]
  | LNot c => JArr [JStr "not"; lenc c]
  | LBehavioral op iop idim ivs io => JArr [JStr op; lenc_simple iop idim ivs io]
  | LSegment ids => JArr [JStr "is"; JStr "segment"; JArr (map JNum ids)]
  end.

(** The operator names with a meaning of their own in [checkSingleFilter]. *)
Definition reserved_operators : list string := ["and"; "or"; "not"; "has_done"; "has_not_done"].

(** Well-formed filters: logical nodes are [and]/[or], behavioral nodes
    [has_done]/[has_not_done], and a simple filter's operator is none of
    the reserved names (the simple operators [is], [is_not], [contains],
    ... all qualify). *)
Fixpoint lwf (f : lfilter) : bool :=
  match f with
  | LSimple op _ _ _ => negb (includes reserved_operators op)
  | LLogical op cs => includes ["and"; "or"] op && forallb lwf cs
  | LNot c => lwf c
  | LBehavioral op _ _ _ _ => includes ["has_done"; "has_not_done"] op
  | LSegment _ => true
  end.

(** A simple filter on [d] is reachable through [and]/[or]/[not] and
    behavioral wrappers. *)
Fixpoint lreaches (d : string) (f : lfilter) : bool :=
  match f with
  | LSimple _ dim _ _ => String.eqb dim d
  | LLogical _ cs => existsb (lreaches d) cs
  | LNot c => lreaches d c
  | LBehavioral _ _ idim _ _ => String.eqb idim d
  | LSegment _ => false
  end.

(** The filter types of [src/src/types.ts] ([FilterType]). *)
Inductive ufilter : Type :=
| USimple (dimension operator : string) (value : string + list string)
| ULogical (operator : string) (children : list ufilter)
| UBehavioral (operator type value : string)
| USegment (ids : list Z).

Definition uenc_value (v : string + list string) : jval :=
  match v with
  | inl s => JStr s
  | inr vs => JArr (map JStr vs)
  end.

Fixpoint uenc (f : ufilter) : jval :=
  match f with
  | USimple dim op v => JArr [JStr dim; JStr op; uenc_value v]
  | ULogical op cs => JArr [JStr op; JArr (map uenc cs)]
  | UBehavioral op ty v => JArr [JStr op; JStr ty; JStr v]
  | USegment ids => JArr [JStr "is"; JStr "segment"; JArr (map JNum ids)]
  end.

(** Well-formed: behavioral nodes use [has_done]/[has_not_done], and no
    simple filter has a behavioral operator name as its dimension. *)
Fixpoint uwf (f : ufilter) : bool :=
  match f with
  | USimple dim _ _ => negb (includes ["has_done"; "has_not_done"] dim)
  | ULogical _ cs => forallb uwf cs
  | UBehavioral op _ _ => includes ["has_done"; "has_not_done"] op
  | USegment _ => true
  end.

(** A simple filter on [d] is reachable through logical nodes. *)
Fixpoint usimple_reaches (d : string) (f : ufilter) : bool :=
  match f with
  | USimple dim _ _ => String.eqb dim d
  | ULogical _ cs => existsb (usimple_reaches d) cs
  | _ => false
  end.

(** A behavioral node targeting [d] ([event:<type>]) is reachable through
    logical nodes. *)
Fixpoint ubehavioral_reaches (d : string) (f : ufilter) : bool :=
  match f with
  | UBehavioral _ ty _ => String.eqb d ("event:" ++ ty)
  | ULogical _ cs => existsb (ubehavioral_reaches d) cs
  | _ => false
  end.

(** Forests of simple filters under [and]/[or] nodes, the shape both
    revisions share up to the order of a simple filter's dimension and
    operator. *)
Inductive sfilter : Type :=
| SSimple (dimension operator : string) (values : list string)
| SLogical (operator : string) (children : list sfilter).

(** Dimension-first layout of [src/src/types.ts]. *)
Fixpoint senc_utils (f : sfilter) : jval :=
  match f with
  | SSimple dim op vs => JArr [JStr dim; JStr op; JArr (map JStr vs)]
  | SLogical op cs => JArr [JStr op; JArr (map senc_utils cs)]
  end.

(** Operator-first layout of [src/unnamed/part_003]. *)
Fixpoint senc_legacy (f : sfilter) : jval :=
  match f with
  | SSimple dim op vs => JArr [JStr op; JStr dim; JArr (map JStr vs)]
  | SLogical op cs => JArr [JStr op; JArr (map senc_legacy cs)]
  end.

Fixpoint swf (f : sfilter) : bool :=
  match f with
  | SSimple dim op _ =>
      negb (includes reserved_operators op)
      && negb (includes ["has_done"; "has_not_done"; "segment"] dim)
  | SLogical op cs => includes ["and"; "or"] op && forallb swf cs
  end.

(** A simple filter on [d] is reachable through [and]/[or] nodes. *)
Fixpoint sreaches (d : string) (f : sfilter) : bool :=
  match f with
  | SSimple dim _ _ => String.eqb dim d
  | SLogical _ cs => existsb (sreaches d) cs
  end.

(** ** The rule sequence of [validateAllParameters] *)

(** The first rule of a sequence that throws decides the verdict. *)
Fixpoint first_failure (rules : list (result unit)) : result (option ValidationError) :=
  match rules with
  | [] => Ok None
  | Ok _ :: rest => first_failure rest
  | Throw (ValidationErr e) :: _ => Ok (Some e)
  | Throw e :: _ => Throw e
  end.

Definition rule_sequence (parse_fallback : string -> option Z) (p : Params) : list (result unit) :=
  [validateDateRange parse_fallback (dateRange p);
   validatePercentageMetric (metrics p) (dimensions p);
   validatePageMetrics (metrics p) (dimensions p) (filters p);
   validateGoalMetrics (metrics p) (dimensions p) (filters p);
   validateRevenueMetrics (metrics p) (dimensions p) (filters p);
   validateSessionMetricsWithEventDimensions (metrics p) (dimensions p);
   validateTimeLabelRequirements (include p) (dimensions p)].

(** Calendar order on (year, month, day). *)
Definition date_ltb (a b : Z * Z * Z) : bool :=
  let '(y1, m1, d1) := a in
  let '(y2, m2, d2) := b in
  (y1 <? y2)%Z || ((y1 =? y2)%Z && ((m1 <? m2)%Z || ((m1 =? m2)%Z && (d1 <? d2)%Z))).

(** Induction principles for the nested filter types. *)
Section FilterInd.
  Variable P : lfilter -> Prop.
  Hypothesis HSimple : forall op dim vs o, P (LSimple op dim vs o).
  Hypothesis HLogical : forall op cs, Forall P cs -> P (LLogical op cs).
  Hypothesis HNot : forall c, P c -> P (LNot c).
  Hypothesis HBehavioral : forall op iop idim ivs io, P (LBehavioral op iop idim ivs io).
  Hypothesis HSegment : forall ids, P (LSegment ids).

Fixpoint lfilter_ind' (f : lfilter) : P f :=
    match f with
    | LSimple op dim vs o => HSimple op dim vs o
    | LLogical op cs =>
        HLogical op cs
          ((fix all (l : list lfilter) : Forall P l :=
              match l with
              | [] => Forall_nil P
              | x :: l' => Forall_cons x (lfilter_ind' x) (all l')
              end) cs)
    | LNot c => HNot c (lfilter_ind' c)
    | LBehavioral op iop idim ivs io => HBehavioral op iop idim ivs io
    | LSegment ids => HSegment ids
    end.
End FilterInd.

Section UFilterInd.
  Variable P : ufilter -> Prop.
  Hypothesis HSimple : forall dim op v, P (USimple dim op v).
  Hypothesis HLogical : forall op cs, Forall P cs -> P (ULogical op cs).
  Hypothesis HBehavioral : forall op ty v, P (UBehavioral op ty v).
  Hypothesis HSegment : forall ids, P (USegment ids).

Fixpoint ufilter_ind' (f : ufilter) : P f :=
    match f with
    | USimple dim op v => HSimple dim op v
    | ULogical op cs =>
        HLogical op cs
          ((fix all (l : list ufilter) : Forall P l :=
              match l with
              | [] => Forall_nil P
              | x :: l' => Forall_cons x (ufilter_ind' x) (all l')
              end) cs)
    | UBehavioral op ty v => HBehavioral op ty v
    | USegment ids => HSegment ids
    end.
End UFilterInd.

Section SFilterInd.
  Variable P : sfilter -> Prop.
  Hypothesis HSimple : forall dim op vs, P (SSimple dim op vs).
  Hypothesis HLogical : forall op cs, Forall P cs -> P (SLogical op cs).

Fixpoint sfilter_ind' (f : sfilter) : P f :=
    match f with
    | SSimple dim op vs => HSimple dim op vs
    | SLogical op cs =>
        HLogical op cs
          ((fix all (l : list sfilter) : Forall P l :=
              match l with
              | [] => Forall_nil P
              | x :: l' => Forall_cons x (sfilter_ind' x) (all l')
              end) cs)
    end.
End SFilterInd.

(** ** Constants of [constants.js] (the module appended to [src/src/client.ts]) *)

Definition predefinedDateRanges : list string :=
  ["day"; "7d"; "28d"; "30d"; "91d"; "month"; "6mo"; "12mo"; "year"; "all"].

Definition eventDimensions : list string := ["event:goal"; "event:page"; "event:hostname"].

Definition visitDimensions : list string :=
  ["visit:entry_page"; "visit:exit_page"; "visit:source"; "visit:referrer";
   "visit:channel"; "visit:utm_medium"; "visit:utm_source"; "visit:utm_campaign";
   "visit:utm_content"; "visit:utm_term"; "visit:device"; "visit:browser";
   "visit:browser_version"; "visit:os"; "visit:os_version"; "visit:country";
   "visit:region"; "visit:city"; "visit:country_name"; "visit:region_name";
   "visit:city_name"].

Definition timeDimensions : list string := ["time"; "time:hour"; "time:day"; "time:week"; "time:month"].

Definition filterOperators : list string :=
  ["is"; "is_not"; "contains"; "contains_not"; "matches"; "matches_not"].

Definition logicalOperators : list string := ["and"; "or"; "not"].

Definition behavioralOperators : list string := ["has_done"; "has_not_done"].

(** ** Input schema of the [plausible_query] tool of [src/unnamed/part_003] *)

(** [z.enum(values)] on a value. *)
Definition js_enum (values : list string) (v : jval) : bool :=
  match v with JStr s => includes values s | _ => false end.

(** [z.number()]. *)
Definition js_is_number (v : jval) : bool :=
  match v with JNum _ => true | _ => false end.

(** [z.array(z.string())]. *)
Definition js_string_array (v : jval) : bool :=
  match v with JArr xs => forallb js_is_string xs | _ => false end.

(** [z.object({ case_sensitive: z.boolean().optional() })]: a plain object
    (arrays and [null] are refused).  [JObj] carries no properties in this
    model, so every plain object is accepted: the schema predicates below
    accept every value zod accepts, and the theorems about them hold a
    fortiori for zod's. *)
Definition js_is_object (v : jval) : bool :=
  match v with JObj => true | _ => false end.

(** [simpleFilterSchema]: [[operator, dimension, values]] or
    [[operator, dimension, values, options]] ([z.tuple] fixes the length). *)
Definition simpleFilterSchema (v : jval) : bool :=
  match v with
  | JArr [op; dim; vals] => js_enum filterOperators op && js_is_string dim && js_string_array vals
  | JArr [op; dim; vals; opts] =>
      js_enum filterOperators op && js_is_string dim && js_string_array vals && js_is_object opts
  | _ => false
  end.

(** [segmentFilterSchema]: [["is", "segment", ids]]. *)
Definition segmentFilterSchema (v : jval) : bool :=
  match v with
  | JArr [a; b; JArr ids] => js_eq_str a "is" && js_eq_str b "segment" && forallb js_is_number ids
  | _ => false
  end.

(** [filterSchema]: the union of the simple and segment schemas, a logical
    node [[and|or|not, filters]] and a behavioral node
    [[has_done|has_not_done, simple filter]]. *)
Fixpoint filterSchema (v : jval) : bool :=
  simpleFilterSchema v || segmentFilterSchema v
  || match v with
     | JArr [op; JArr fs] =>
         js_enum logicalOperators op
         && (fix all (l : list jval) : bool :=
               match l with
               | [] => true
               | f :: l' => filterSchema f && all l'
               end) fs
     | _ => false
     end
  || match v with
     | JArr [op; s] => js_enum behavioralOperators op && simpleFilterSchema s
     | _ => false
     end.

(** [dimensionSchema]: an event, visit or time dimension, or a string
    matching [/^event:props:/]. *)
Definition dimensionSchema (d : string) : bool :=
  includes eventDimensions d || includes visitDimensions d || includes timeDimensions d
  || startsWith d "event:props:".

(** [\d] of a regular expression without the [u] flag: [0-9]. *)
Definition is_digit (c : ascii) : bool :=
  match digit_val c with Some _ => true | None => false end.

(** [isoDate]: [/^\d{4}-\d{2}-\d{2}(T\d{2}:\d{2}:\d{2}[+-]\d{2}:\d{2})?$/]. *)
Definition isoDate (s : string) : bool :=
  match list_ascii_of_string s with
  | [y1; y2; y3; y4; "-"; m1; m2; "-"; d1; d2]%char =>
      forallb is_digit [y1; y2; y3; y4; m1; m2; d1; d2]
  | [y1; y2; y3; y4; "-"; m1; m2; "-"; d1; d2; "T"; h1; h2; ":"; i1; i2; ":"; s1; s2;
     sg; z1; z2; ":"; z3; z4]%char =>
      forallb is_digit [y1; y2; y3; y4; m1; m2; d1; d2; h1; h2; i1; i2; s1; s2; z1; z2; z3; z4]
      && (Ascii.eqb sg "+" || Ascii.eqb sg "-")
  | _ => false
  end.

(** [datePair]: [z.array(isoDate).length(2)] refined by
    [start !== undefined && end !== undefined && new Date(start) < new Date(end)]
    ([<] on two dates compares their time values and is false on [NaN]). *)
Definition datePair (parse_fallback : string -> option Z) (dates : list string) : bool :=
  forallb isoDate dates && Nat.eqb (length dates) 2
  && match nth_error dates 0, nth_error dates 1 with
     | Some start, Some end_ =>
         match new_Date parse_fallback (Some start), new_Date parse_fallback (Some end_) with
         | Some a, Some b => Z.ltb a b
         | _, _ => false
         end
     | _, _ => false
     end.

(** The [date_range] field: [z.union([z.enum(predefinedDateRanges), datePair])]. *)
Definition dateRangeSchema (parse_fallback : string -> option Z) (dr : DateRange) : bool :=
  match dr with
  | DRString s => includes predefinedDateRanges s
  | DRArray dates => datePair parse_fallback dates
  end.

(** ** How an asynchronous call ends *)

(** A rejection carries an [Error] (its [message]) or any other value. *)
Inductive thrown : Type :=
| ThrownError (message : string)
| ThrownValue (v : jval).

Inductive outcome (A : Type) : Type :=
| Resolved (a : A)
| Rejected (e : thrown).
Arguments Resolved {A} a.
Arguments Rejected {A} e.

(** [error instanceof Error ? error.message : String(error)] *)
Definition thrown_message (e : thrown) : string :=
  match e with
  | ThrownError m => m
  | ThrownValue v => js_to_string v
  end.

(** A line break. *)
Definition nl : string := String (ascii_of_nat 10) EmptyString.

(** ** The [plausible_query] tool of [src/unnamed/part_003] *)
Module Tool.

(** The query the tool builds ([PlausibleQuery]); an optional field that
    is [undefined] and one that is absent are the same [None], as they are
    to [JSON.stringify]. *)
Record PlausibleQuery : Type := mkQuery {
  site_id : string;
  query_metrics : list string;
  date_range : DateRange;
  query_dimensions : option (list string);
  query_filters : option (list jval);
  order_by : option (list (string * string));
  query_include : option Include;
  pagination : option (option Z * option Z)
}.

(** The part of a [fetch] response the client reads. *)
Record Response : Type := mkResponse {
  ok : bool;
  statusText : string
}.

Section Server.

Variable parse_fallback : string -> option Z.
(** The JSON value of a response body, and [JSON.stringify(v, null, 2)]. *)
Variable Json : Type.
Variable JSON_stringify : Json -> string.
(** [fetch(`${plausibleApiUrl}/query`, {method: "POST", ..., body: JSON.stringify(query)})]. *)
Variable fetch : PlausibleQuery -> outcome Response.
(** [response.json()]. *)
Variable response_json : Response -> outcome Json.

(** [PlausibleClient.query] *)
Definition PlausibleClient_query (query : PlausibleQuery) : outcome Json :=
  match fetch query with
  | Rejected e => Rejected e
  | Resolved response =>
      if negb (ok response) then
        Rejected (ThrownError ("Plausible API error: " ++ statusText response))
      else response_json response
  end.

(** [executeQuery]: the full query keeps the defined optional fields, is
    sent, and any rejection becomes an error text. *)
Definition executeQuery (query : PlausibleQuery) : string :=
  let fullQuery := query in
  match PlausibleClient_query fullQuery with
  | Resolved response => JSON_stringify response
  | Rejected error => "Error querying Plausible API: " ++ thrown_message error
  end.

(** The parameters handed to [validateAllParameters]. *)
Definition validation_params (query : PlausibleQuery) : Params :=
  mkParams (query_metrics query) (query_dimensions query) (query_filters query)
    (query_include query) (date_range query).

(** The handler of [plausible_query] on the parameters zod has parsed: the
    text of its single content item, or the exception it rejects with. *)
Definition plausible_query_handler (query : PlausibleQuery) : result string :=
  let* validationError := validateAllParameters parse_fallback (validation_params query) in
  match validationError with
  | Some e =>
      Ok ("Parameter validation error: " ++ message e ++ nl ++ nl
          ++ match details e with Some d => d | None => "" end)
  | None => Ok (executeQuery query)
  end.

(** [validMetrics] of the constants module appended to [src/src/client.ts]. *)
Definition validMetrics : list string :=
  ["visitors"; "visits"; "pageviews"; "views_per_visit"; "bounce_rate";
   "visit_duration"; "events"; "scroll_depth"; "percentage";
   "conversion_rate"; "group_conversion_rate"; "average_revenue"; "total_revenue";
   "time_on_page"].

(** The arguments of a [plausible_query] call, each property [None] when it
    is absent; a present property has the type the schema asks for. *)
Record ToolArgs : Type := mkArgs {
  arg_site_id : option string;
  arg_metrics : option (list string);
  arg_date_range : option DateRange;
  arg_dimensions : option (list string);
  arg_filters : option (list jval);
  arg_order_by : option (list (string * string));
  arg_include : option Include;
  arg_pagination : option (option Z * option Z)
}.

(** The input schema of [plausible_query]: [site_id] a string of at least
    one character, [metrics] a non-empty array of [validMetrics], the
    [date_range] union, optional arrays of [dimensionSchema] and
    [filterSchema] values, optional [order_by] pairs whose direction is
    [asc] or [desc], and [pagination] whose missing [limit] and [offset]
    default to [10000] and [0].  [None] when zod rejects the arguments. *)
Definition inputSchema (args : ToolArgs) : option PlausibleQuery :=
  match arg_site_id args, arg_metrics args, arg_date_range args with
  | Some site, Some ms, Some dr =>
      if Nat.leb 1 (String.length site)
         && forallb (includes validMetrics) ms && Nat.leb 1 (length ms)
         && dateRangeSchema parse_fallback dr
         && match arg_dimensions args with Some ds => forallb dimensionSchema ds | None => true end
         && match arg_filters args with Some fs => forallb filterSchema fs | None => true end
         && match arg_order_by args with
            | Some os => forallb (fun o => includes ["asc"; "desc"] (snd o)) os
            | None => true
            end
      then
        Some (mkQuery site ms dr (arg_dimensions args) (arg_filters args) (arg_order_by args)
                (arg_include args)
                (option_map
                   (fun p => (Some (match fst p with Some l => l | None => 10000%Z end),
                              Some (match snd p with Some o => o | None => 0%Z end)))
                   (arg_pagination args)))
      else None
  | _, _, _ => None
  end.

(** How a call ends: the arguments are refused by the input schema (the
    MCP SDK answers with the zod error, whose wording is not in this
    repository), or the handler replies with a text. *)
Inductive ToolResult : Type :=
| InputRejected
| Reply (text : string).

(** A [plausible_query] call: the SDK parses the arguments with the input
    schema and runs the handler on the parsed query. *)
Definition plausible_query_call (args : ToolArgs) : result ToolResult :=
  match inputSchema args with
  | None => Ok InputRejected
  | Some query =>
      let* text := plausible_query_handler query in
      Ok (Reply text)
  end.

End Server.

End Tool.

(** ** [executeQuery] of [src/unnamed/part_002] ([api.ts]) *)
Module Api.

(** JSON values as [JSON.parse] and [response.json()] produce them;
    numbers are the integers. *)
Inductive json : Type :=
| JSNull
| JSBool (b : bool)
| JSNum (n : Z)
| JSStr (s : string)
| JSArr (xs : list json)
| JSObj (props : list (string * json)).

(** A plain object: its properties in insertion order. *)
Definition obj : Type := list (string * json).

(** [o[k]] of an object. *)
Fixpoint obj_get (o : obj) (k : string) : option json :=
  match o with
  | [] => None
  | (k', v) :: o' => if String.eqb k' k then Some v else obj_get o' k
  end.

(** [o[k] = v]: an existing property keeps its place, a new one is appended. *)
Fixpoint obj_set (o : obj) (k : string) (v : json) : obj :=
  match o with
  | [] => [(k, v)]
  | (k', v') :: o' => if String.eqb k' k then (k, v) :: o' else (k', v') :: obj_set o' k v
  end.

(** The object a JSON text denotes: its members are defined in order, so a
    repeated key keeps its first place and its last value. *)
Definition json_object (props : list (string * json)) : obj :=
  fold_left (fun o kv => obj_set o (fst kv) (snd kv)) props [].

(** The own enumerable properties of a value, as [{...v}] copies them. *)
Definition own_props (v : json) : obj :=
  match v with
  | JSObj props => json_object props
  | JSArr xs => combine (map (fun i => Z_to_dec (Z.of_nat i)) (seq 0 (length xs))) xs
  | JSStr s =>
      combine (map (fun i => Z_to_dec (Z.of_nat i)) (seq 0 (String.length s)))
        (map (fun c => JSStr (String c EmptyString)) (list_ascii_of_string s))
  | _ => []
  end.

(** [v.error]: a [TypeError] on [null], [undefined] when absent. *)
Definition json_get (v : json) (k : string) : result (option json) :=
  match v with
  | JSNull => Throw TypeError
  | JSObj props => Ok (obj_get (json_object props) k)
  | _ => Ok None
  end.

(** [String(v)], as [new Error(v)] converts its argument. *)
Fixpoint json_to_string (v : json) : string :=
  match v with
  | JSNull => "null"
  | JSBool b => if b then "true" else "false"
  | JSNum n => Z_to_dec n
  | JSStr s => s
  | JSArr xs =>
      String.concat ","
        ((fix elems (l : list json) : list string :=
            match l with
            | [] => []
            | x :: l' => match x with JSNull => "" | _ => json_to_string x end :: elems l'
            end) xs)
  | JSObj _ => "[object Object]"
  end.

(** [const { debug: _debug, ...queryParams } = query;] *)
Definition without_debug (query : obj) : obj :=
  List.filter (fun kv => negb (String.eqb (fst kv) "debug")) query.

(** What a [fetch] response offers: [status], [ok], [text()] and [json()]. *)
Record ApiResponse : Type := mkApiResponse {
  status : Z;
  ok : bool;
  text : outcome string;
  body_json : outcome json
}.

Section ExecuteQuery.

(** [JSON.parse], [None] for a [SyntaxError]. *)
Variable JSON_parse : string -> option json.
Variable JSON_stringify : json -> string.
(** [fetch(`${plausibleApiUrl}/query`, {method: 'POST', ..., body})]. *)
Variable fetch : string -> outcome ApiResponse.

(** The message of the error thrown for a failed request. *)
Definition errorMessage_of (status : Z) (errorText : string) : string :=
  let default := "API request failed with status " ++ Z_to_dec status in
  let on_catch := if negb (String.eqb errorText "") then errorText else default in
  match JSON_parse errorText with
  | None => on_catch
  | Some errorJson =>
      match json_get errorJson "error" with
      | Throw _ => on_catch
      | Ok None => default
      | Ok (Some e) =>
          if match e with JSStr s => String.eqb s "" | _ => false end then default
          else json_to_string e
      end
  end.

(** The outer [catch]: an [Error] is rethrown, anything else replaced. *)
Definition rethrow {A : Type} (r : outcome A) : outcome A :=
  match r with
  | Rejected (ThrownValue _) => Rejected (ThrownError "An unexpected error occurred")
  | _ => r
  end.

(** [executeQuery] *)
Definition executeQuery (query : obj) : outcome obj :=
  let queryParams := without_debug query in
  rethrow
    match fetch (JSON_stringify (JSObj queryParams)) with
    | Rejected e => Rejected e
    | Resolved response =>
        if negb (ok response) then
          match text response with
          | Rejected e => Rejected e
          | Resolved errorText => Rejected (ThrownError (errorMessage_of (status response) errorText))
          end
        else
          match body_json response with
          | Rejected e => Rejected e
          | Resolved data => Resolved (obj_set (own_props data) "query" (JSObj queryParams))
          end
    end.

End ExecuteQuery.

End Api.

(** * Properties *)

(** Boolean facts about the string tests. *)
Ltac split_bools :=
  repeat match goal with
  | H : (_ || _)%bool = false |- _ => apply orb_false_iff in H; destruct H
  | H : (_ && _)%bool = true |- _ => apply andb_true_iff in H; destruct H
  | H : negb _ = true |- _ => apply negb_true_iff in H
  end.

Lemma legacy_hasFilter_cons (f : jval) (l : list jval) (d : string) :
  Legacy.hasFilterForDimension (JArr (f :: l)) d
  = (let* found := Legacy.checkSingleFilter f d in
     if found then Ok true else Legacy.hasFilterForDimension (JArr l) d).
Proof.
  simpl. destruct (Legacy.checkSingleFilter f d) as [[|]|e]; simpl; auto.
  destruct l; reflexivity.
Qed.

(** The [not] branch: [hasFilterForDimension([x])] is [checkSingleFilter(x)]. *)
Lemma legacy_hasFilter_singleton (x : jval) (d : string) :
  Legacy.hasFilterForDimension (JArr [x]) d = Legacy.checkSingleFilter x d.
Proof.
  simpl. destruct (Legacy.checkSingleFilter x d) as [[|]|e]; reflexivity.
Qed.

Lemma legacy_simple (op dim : string) (vs : list string) (o : bool) (d : string) :
  negb (includes reserved_operators op) = true -> dim <> "segment" \/ d <> "segment" ->
  Legacy.checkSingleFilter (lenc_simple op dim vs o) d = Ok (String.eqb dim d).
Proof.
  intros Hop Hd. unfold includes, reserved_operators in Hop. simpl in Hop.
  rewrite orb_false_r in Hop. split_bools.
  assert (Hcase : Legacy.checkSingleFilter (lenc_simple op dim vs o) d
                  = Legacy.singleFilterCases (lenc_simple op dim vs o) (JStr op)
                      (Legacy.hasFilterForDimension (JStr dim) d)
                      (Legacy.checkSingleFilter (JStr dim) d) d)
    by (unfold lenc_simple; destruct o; reflexivity).
  rewrite Hcase. unfold Legacy.singleFilterCases. simpl.
  repeat match goal with H : String.eqb op _ = false |- _ => rewrite H; clear H end.
  simpl. unfold lenc_simple.
  destruct (String.eqb op "is"); destruct o; simpl; try reflexivity;
    destruct (String.eqb_spec dim "segment"); subst; try reflexivity;
    f_equal; symmetry; apply String.eqb_neq; intuition congruence.
Qed.

Lemma legacy_hasFilter_map (d : string) (cs : list lfilter) :
  Forall (fun f => lwf f = true -> Legacy.checkSingleFilter (lenc f) d = Ok (lreaches d f)) cs ->
  forallb lwf cs = true ->
  Legacy.hasFilterForDimension (JArr (map lenc cs)) d = Ok (existsb (lreaches d) cs).
Proof.
  induction 1 as [|f cs Hf _ IH]; intros Hwf; [reflexivity|].
  simpl in Hwf. apply andb_true_iff in Hwf as [Hwf1 Hwf2].
  simpl map. rewrite legacy_hasFilter_cons, (Hf Hwf1). simpl.
  destruct (lreaches d f); simpl; auto.
Qed.

Lemma legacy_checkSingleFilter_typed (d : string) (f : lfilter) :
  d <> "segment" -> lwf f = true ->
  Legacy.checkSingleFilter (lenc f) d = Ok (lreaches d f).
Proof.
  intros Hd. induction f as [op dim vs o|op cs IH|c IH|op iop idim ivs io|ids]
    using lfilter_ind'; intros Hwf.
  - apply legacy_simple; auto.
  - simpl in Hwf. apply andb_true_iff in Hwf as [Hop Hcs].
    change (Legacy.singleFilterCases (lenc (LLogical op cs)) (JStr op)
              (Legacy.hasFilterForDimension (JArr (map lenc cs)) d)
              (Legacy.checkSingleFilter (JArr (map lenc cs)) d) d = Ok (existsb (lreaches d) cs)).
    unfold includes in Hop. simpl in Hop. rewrite orb_false_r in Hop.
    unfold Legacy.singleFilterCases. simpl js_eq_str. rewrite Hop.
    apply legacy_hasFilter_map; assumption.
  - simpl in Hwf. simpl. apply IH. exact Hwf.
  - simpl in Hwf. unfold includes in Hwf. simpl in Hwf. rewrite orb_false_r in Hwf.
    change (Legacy.singleFilterCases (lenc (LBehavioral op iop idim ivs io)) (JStr op)
              (Legacy.hasFilterForDimension (lenc_simple iop idim ivs io) d)
              (Legacy.checkSingleFilter (lenc_simple iop idim ivs io) d) d
            = Ok (String.eqb idim d)).
    unfold Legacy.singleFilterCases. simpl js_eq_str.
    destruct (String.eqb_spec op "has_done"); destruct (String.eqb_spec op "has_not_done");
      simpl in Hwf; try discriminate; subst; simpl;
      unfold lenc_simple; destruct io; reflexivity.
  - reflexivity.
Qed.

Lemma existsb_orb {A : Type} (p q : A -> bool) (l : list A) :
  existsb (fun x => p x || q x) l = existsb p l || existsb q l.
Proof.
  induction l as [|x l IH]; simpl; [reflexivity|].
  rewrite IH. destruct (p x), (q x), (existsb p l), (existsb q l); reflexivity.
Qed.

Lemma utils_logical (x : jval) (l : list jval) (d : string) :
  Utils.checkSingleFilter (JArr [x; JArr l]) d = existsb (fun f => Utils.checkSingleFilter f d) l.
Proof.
  induction l as [|f l IH]; [reflexivity|].
  simpl in IH |- *. rewrite IH. reflexivity.
Qed.

Lemma utils_checkSingleFilter_typed (d : string) (f : ufilter) :
  d <> "is" -> uwf f = true ->
  Utils.checkSingleFilter (uenc f) d = usimple_reaches d f || ubehavioral_reaches d f.
Proof.
  intros Hd. induction f as [dim op v|op cs IH|op ty v|ids] using ufilter_ind'; intros Hwf.
  - simpl in Hwf. unfold includes in Hwf. simpl in Hwf. rewrite orb_false_r in Hwf.
    split_bools. simpl. rewrite H, H0. simpl. unfold Utils.checkSimpleFilter. simpl.
    rewrite orb_false_r. reflexivity.
  - simpl uenc. rewrite utils_logical. simpl. rewrite <- existsb_orb.
    simpl in Hwf. induction IH as [|c cs Hc _ IHcs]; [reflexivity|].
    simpl in Hwf. apply andb_true_iff in Hwf as [Hw1 Hw2]. simpl.
    rewrite (Hc Hw1), (IHcs Hw2). reflexivity.
  - simpl in Hwf. unfold includes in Hwf. simpl in Hwf. rewrite orb_false_r in Hwf.
    simpl. unfold Utils.checkBehavioralFilter. simpl. rewrite Hwf. reflexivity.
  - cbn -[String.eqb]. apply String.eqb_neq. congruence.
Qed.

Lemma utils_hasFilter_typed (d : string) (fs : list ufilter) :
  d <> "" -> d <> "is" -> forallb uwf fs = true ->
  Utils.hasFilterForDimension (Some (map uenc fs)) (Some d)
  = existsb (fun f => usimple_reaches d f || ubehavioral_reaches d f) fs.
Proof.
  intros Hd Hd' Hwf. unfold Utils.hasFilterForDimension.
  destruct (String.eqb_spec d ""); [congruence|].
  induction fs as [|f fs IH]; [reflexivity|].
  simpl in Hwf |- *. apply andb_true_iff in Hwf as [Hw1 Hw2].
  rewrite (utils_checkSingleFilter_typed d f Hd' Hw1), (IH Hw2). reflexivity.
Qed.

Lemma utils_sfilter (d : string) (f : sfilter) :
  swf f = true -> Utils.checkSingleFilter (senc_utils f) d = sreaches d f.
Proof.
  induction f as [dim op vs|op cs IH] using sfilter_ind'; intros Hwf.
  - simpl in Hwf. unfold includes, reserved_operators in Hwf. simpl in Hwf.
    rewrite !orb_false_r in Hwf. split_bools.
    simpl. repeat match goal with H : String.eqb dim _ = false |- _ => rewrite H; clear H end.
    reflexivity.
  - simpl senc_utils. rewrite utils_logical. simpl.
    simpl in Hwf. apply andb_true_iff in Hwf as [_ Hcs].
    induction IH as [|c cs Hc _ IHcs]; [reflexivity|].
    simpl in Hcs. apply andb_true_iff in Hcs as [Hw1 Hw2]. simpl.
    rewrite (Hc Hw1), (IHcs Hw2). reflexivity.
Qed.

Lemma legacy_sfilter (d : string) (f : sfilter) :
  swf f = true -> Legacy.checkSingleFilter (senc_legacy f) d = Ok (sreaches d f).
Proof.
  induction f as [dim op vs|op cs IH] using sfilter_ind'; intros Hwf.
  - change (negb (includes reserved_operators op)
            && negb (includes ["has_done"; "has_not_done"; "segment"] dim) = true) in Hwf.
    apply andb_true_iff in Hwf as [Hop Hdim].
    unfold includes in Hdim. simpl in Hdim. rewrite !orb_false_r in Hdim. split_bools.
    apply (legacy_simple op dim vs false d); [rewrite Hop; reflexivity|]. left. apply String.eqb_neq. assumption.
  - simpl in Hwf. apply andb_true_iff in Hwf as [Hop Hcs].
    change (Legacy.singleFilterCases (senc_legacy (SLogical op cs)) (JStr op)
              (Legacy.hasFilterForDimension (JArr (map senc_legacy cs)) d)
              (Legacy.checkSingleFilter (JArr (map senc_legacy cs)) d) d
            = Ok (existsb (sreaches d) cs)).
    unfold includes in Hop. simpl in Hop. rewrite orb_false_r in Hop.
    unfold Legacy.singleFilterCases. simpl js_eq_str. rewrite Hop.
    induction IH as [|c cs Hc _ IHcs]; [reflexivity|].
    simpl in Hcs. apply andb_true_iff in Hcs as [Hw1 Hw2].
    simpl map. rewrite legacy_hasFilter_cons, (Hc Hw1). simpl.
    destruct (sreaches d c); simpl; auto.
Qed.

(** ** Filter-membership search *)

(** C1 (counterexample): in [src/src/utils.ts] a 3-element behavioral node
    [["has_done", "page", "/x"]] makes the search for [event:page] succeed
    although no simple filter on [event:page] is reachable, and a segment
    filter satisfies the search for the dimension ["is"]. *)
Lemma C1_counterexample :
  Utils.hasFilterForDimension (Some [uenc (UBehavioral "has_done" "page" "/x")]) (Some "event:page") = true
  /\ existsb (usimple_reaches "event:page") [UBehavioral "has_done" "page" "/x"] = false
  /\ Utils.hasFilterForDimension (Some [uenc (USegment [1%Z])]) (Some "is") = true.
Proof. repeat split; reflexivity. Qed.

(** C1 (amended): in [src/unnamed/part_003], for every well-formed filter
    list in its operator-first layout, [hasFilterForDimension(filters,
    "event:page")] never raises and returns true iff a simple filter on
    [event:page] is reachable through [and]/[or]/[not]/behavioral wrappers;
    a segment node never matches any dimension.  In [src/src/utils.ts], for
    every well-formed list in its dimension-first layout, the search for
    [event:page] returns true iff a simple filter on [event:page] or a
    3-element behavioral node of type [page] is reachable through logical
    nodes; a segment node never matches [event:page]. *)
Theorem C1_filter_search_event_page :
  (forall fs : list lfilter, forallb lwf fs = true ->
     Legacy.hasFilterForDimension (JArr (map lenc fs)) "event:page"
     = Ok (existsb (lreaches "event:page") fs))
  /\ (forall (ids : list Z) (d : string), Legacy.checkSingleFilter (lenc (LSegment ids)) d = Ok false)
  /\ (forall fs : list ufilter, forallb uwf fs = true ->
        Utils.hasFilterForDimension (Some (map uenc fs)) (Some "event:page")
        = existsb (fun f => usimple_reaches "event:page" f || ubehavioral_reaches "event:page" f) fs)
  /\ (forall ids : list Z, Utils.checkSingleFilter (uenc (USegment ids)) "event:page" = false).
Proof.
  split; [|split; [|split]].
  - intros fs Hwf. apply legacy_hasFilter_map; [|exact Hwf].
    apply Forall_forall. intros f _. apply legacy_checkSingleFilter_typed. discriminate.
  - reflexivity.
  - intros fs Hwf. apply utils_hasFilter_typed; [discriminate|discriminate|exact Hwf].
  - reflexivity.
Qed.

Lemma C1_witness :
  Legacy.hasFilterForDimension
    (JArr (map lenc [LLogical "and" [LSegment [7%Z]; LNot (LSimple "is" "event:page" ["/x"] true)]]))
    "event:page" = Ok true
  /\ Utils.hasFilterForDimension
       (Some (map uenc [ULogical "or" [USegment [7%Z]; USimple "event:page" "is" (inr ["/x"])]]))
       (Some "event:page") = true.
Proof.
  split.
  - apply (proj1 C1_filter_search_event_page). reflexivity.
  - apply (proj1 (proj2 (proj2 C1_filter_search_event_page))). reflexivity.
Defined.

(** C3 (counterexample): neither revision finds [event:page] through the
    behavioral shape it does not use: [src/unnamed/part_003] misses the
    3-tuple [["has_done", "page", "/x"]] and [src/src/utils.ts] misses the
    2-tuple [["has_done", ["event:page", "is", ["/x"]]]]. *)
Lemma C3_counterexample :
  Legacy.hasFilterForDimension (JArr [JArr [JStr "has_done"; JStr "page"; JStr "/x"]]) "event:page"
  = Ok false
  /\ Utils.hasFilterForDimension
       (Some [JArr [JStr "has_done"; JArr [JStr "event:page"; JStr "is"; JArr [JStr "/x"]]]])
       (Some "event:page") = false.
Proof. split; reflexivity. Qed.

(** C3 (amended): each revision reads one behavioral shape.  In
    [src/src/utils.ts] a 3-tuple [(has_done|has_not_done, type, value)]
    targets [event:<type>] (so [goal] targets [event:goal] and [page]
    targets [event:page]); in [src/unnamed/part_003] a 2-tuple
    [(has_done|has_not_done, inner simple filter)] targets the inner
    filter's dimension. *)
Theorem C3_behavioral_shapes :
  (forall (op ty v d : string), includes ["has_done"; "has_not_done"] op = true ->
     Utils.checkSingleFilter (JArr [JStr op; JStr ty; JStr v]) d = String.eqb d ("event:" ++ ty))
  /\ (forall (op iop idim : string) (ivs : list string) (io : bool) (d : string),
        includes ["has_done"; "has_not_done"] op = true ->
        Legacy.checkSingleFilter (lenc (LBehavioral op iop idim ivs io)) d = Ok (String.eqb idim d)).
Proof.
  split.
  - intros op ty v d Hop. unfold includes in Hop. simpl in Hop. rewrite orb_false_r in Hop.
    simpl. rewrite Hop. reflexivity.
  - intros op iop idim ivs io d Hop.
    change (Legacy.singleFilterCases (lenc (LBehavioral op iop idim ivs io)) (JStr op)
              (Legacy.hasFilterForDimension (lenc_simple iop idim ivs io) d)
              (Legacy.checkSingleFilter (lenc_simple iop idim ivs io) d) d
            = Ok (String.eqb idim d)).
    unfold includes in Hop. simpl in Hop. rewrite orb_false_r in Hop.
    unfold Legacy.singleFilterCases. simpl js_eq_str.
    destruct (String.eqb_spec op "has_done"); destruct (String.eqb_spec op "has_not_done");
      simpl in Hop; try discriminate; subst; simpl;
      unfold lenc_simple; destruct io; reflexivity.
Qed.

Lemma C3_witness :
  Utils.checkSingleFilter (JArr [JStr "has_done"; JStr "goal"; JStr "Signup"]) "event:goal" = true
  /\ Legacy.checkSingleFilter (lenc (LBehavioral "has_not_done" "is" "event:page" ["/x"] false))
       "event:page" = Ok true.
Proof.
  split.
  - rewrite (proj1 C3_behavioral_shapes "has_done" "goal" "Signup" "event:goal"); reflexivity.
  - rewrite (proj2 C3_behavioral_shapes "has_not_done" "is" "event:page" ["/x"] false "event:page");
      reflexivity.
Defined.

(** C8 (counterexample): [src/unnamed/part_003] raises a [TypeError] on the
    malformed node [["not"]], and [src/src/utils.ts] matches the node
    [["event:page", "bogus", "x"]] whose operator is not recognised. *)
Lemma C8_counterexample :
  Legacy.hasFilterForDimension (JArr [JArr [JStr "not"]]) "event:page" = Throw TypeError
  /\ Utils.hasFilterForDimension (Some [JArr [JStr "event:page"; JStr "bogus"; JStr "x"]])
       (Some "event:page") = true.
Proof. split; reflexivity. Qed.

(** C8 (amended): the search of [src/src/utils.ts] is a total boolean
    function in which every non-array node, every node whose length is
    neither 2 nor 3, and every 2-element node whose second element is not
    an array is non-matching; it does not check operators, so a 3-element
    node [dimension, operator, value] matches on its first element whatever
    its operator.  The search of [src/unnamed/part_003] raises a
    [TypeError] on malformed nodes such as [["not"]] and [["and", "x"]],
    and reads a 3-element node with an unrecognised operator as a simple
    filter matching on its second element. *)
Theorem C8_malformed_nodes :
  (forall (v : jval) (d : string), js_is_array v = false -> Utils.checkSingleFilter v d = false)
  /\ (forall (xs : list jval) (d : string), length xs <> 2%nat -> length xs <> 3%nat ->
        Utils.checkSingleFilter (JArr xs) d = false)
  /\ (forall (x y : jval) (d : string), js_is_array y = false ->
        Utils.checkSingleFilter (JArr [x; y]) d = false)
  /\ (forall (dim : string) (op v : jval) (d : string),
        includes ["has_done"; "has_not_done"] dim = false ->
        Utils.checkSingleFilter (JArr [JStr dim; op; v]) d = String.eqb dim d)
  /\ Legacy.checkSingleFilter (JArr [JStr "not"]) "event:page" = Throw TypeError
  /\ Legacy.checkSingleFilter (JArr [JStr "and"; JStr "x"]) "event:page" = Throw TypeError
  /\ (forall (op dim : string) (v : jval) (d : string),
        includes ("is" :: reserved_operators) op = false ->
        Legacy.checkSingleFilter (JArr [JStr op; JStr dim; v]) d = Ok (String.eqb dim d)).
Proof.
  split; [|split; [|split; [|split; [|split; [|split]]]]].
  - intros v d Hv. destruct v; try reflexivity; discriminate.
  - intros xs d H2 H3. destruct xs as [|a [|b [|c [|e xs]]]]; simpl in H2, H3;
      try congruence; try reflexivity; destruct b; reflexivity.
  - intros x y d Hy. destruct y; try reflexivity; discriminate.
  - intros dim op v d Hdim. unfold includes in Hdim. simpl in Hdim.
    rewrite orb_false_r in Hdim. split_bools.
    destruct op; cbn -[String.eqb]; rewrite H, H0; reflexivity.
  - reflexivity.
  - reflexivity.
  - intros op dim v d Hop. unfold includes, reserved_operators in Hop. simpl in Hop.
    rewrite orb_false_r in Hop. split_bools.
    change (Legacy.singleFilterCases (JArr [JStr op; JStr dim; v]) (JStr op)
              (Legacy.hasFilterForDimension (JStr dim) d)
              (Legacy.checkSingleFilter (JStr dim) d) d = Ok (String.eqb dim d)).
    unfold Legacy.singleFilterCases. simpl js_eq_str.
    repeat match goal with H : String.eqb op _ = false |- _ => rewrite H; clear H end.
    reflexivity.
Qed.

Lemma C8_witness :
  Utils.checkSingleFilter (JStr "event:page") "event:page" = false
  /\ Utils.checkSingleFilter (JArr [JStr "event:page"; JStr "is"; JStr "a"; JStr "b"]) "event:page" = false
  /\ Utils.checkSingleFilter (JArr [JStr "and"; JStr "event:page"]) "event:page" = false
  /\ Utils.checkSingleFilter (JArr [JStr "event:page"; JStr "bogus"; JStr "x"]) "event:page" = true
  /\ Legacy.checkSingleFilter (JArr [JStr "bogus"; JStr "event:page"; JArr []]) "event:page" = Ok true.
Proof.
  split; [|split; [|split; [|split]]].
  - apply (proj1 C8_malformed_nodes). reflexivity.
  - apply (proj1 (proj2 C8_malformed_nodes)); discriminate.
  - apply (proj1 (proj2 (proj2 C8_malformed_nodes))). reflexivity.
  - rewrite (proj1 (proj2 (proj2 (proj2 C8_malformed_nodes))) "event:page" (JStr "bogus") (JStr "x")
               "event:page"); reflexivity.
  - rewrite (proj2 (proj2 (proj2 (proj2 (proj2 (proj2 C8_malformed_nodes)))))
               "bogus" "event:page" (JArr []) "event:page"); reflexivity.
Defined.

(** C9 (counterexample): on the same raw list the two revisions disagree:
    [src/src/utils.ts] reads [["event:page", "is", ["/x"]]] as a filter on
    [event:page], [src/unnamed/part_003] does not. *)
Lemma C9_counterexample :
  Utils.hasFilterForDimension (Some [JArr [JStr "event:page"; JStr "is"; JArr [JStr "/x"]]])
    (Some "event:page") = true
  /\ Legacy.hasFilterForDimension (JArr [JArr [JStr "event:page"; JStr "is"; JArr [JStr "/x"]]])
       "event:page" = Ok false.
Proof. split; reflexivity. Qed.

(** C9 (amended): the two revisions agree up to the order of a simple
    filter's dimension and operator: for every non-empty dimension name and
    every well-formed forest of simple filters under [and]/[or] nodes,
    [src/unnamed/part_003] on the operator-first layout returns (without
    raising) the boolean that [src/src/utils.ts] returns on the
    dimension-first layout. *)
Theorem C9_revisions_agree_up_to_layout (fs : list sfilter) (d : string) :
  d <> "" -> forallb swf fs = true ->
  Legacy.hasFilterForDimension (JArr (map senc_legacy fs)) d
  = Ok (Utils.hasFilterForDimension (Some (map senc_utils fs)) (Some d)).
Proof.
  intros Hd Hwf. unfold Utils.hasFilterForDimension.
  destruct (String.eqb_spec d ""); [congruence|].
  induction fs as [|f fs IH]; [reflexivity|].
  simpl in Hwf. apply andb_true_iff in Hwf as [Hw1 Hw2].
  simpl map. rewrite legacy_hasFilter_cons, (legacy_sfilter d f Hw1). simpl.
  rewrite (utils_sfilter d f Hw1).
  destruct (sreaches d f); simpl; auto.
Qed.

Lemma C9_witness :
  Legacy.hasFilterForDimension
    (JArr (map senc_legacy [SLogical "or" [SSimple "visit:source" "is" ["google"];
                                         SSimple "event:goal" "is" ["Signup"]]]))
    "event:goal" = Ok true.
Proof.
  rewrite (C9_revisions_agree_up_to_layout
             [SLogical "or" [SSimple "visit:source" "is" ["google"]; SSimple "event:goal" "is" ["Signup"]]]
             "event:goal"); [reflexivity|discriminate|reflexivity].
Defined.

(** C10: [hasFilterForDimension] of [src/src/utils.ts] returns false when
    the filters or the dimension are [undefined] or the dimension is empty,
    whatever the filters; and a simple filter node whose dimension is the
    empty string never changes the result. *)
Theorem C10_undefined_or_empty_dimension :
  (forall d : option string, Utils.hasFilterForDimension None d = false)
  /\ (forall fs : option (list jval), Utils.hasFilterForDimension fs None = false)
  /\ (forall fs : option (list jval), Utils.hasFilterForDimension fs (Some "") = false)
  /\ (forall (l1 l2 : list jval) (op v : jval) (d : option string),
        Utils.hasFilterForDimension (Some (l1 ++ JArr [JStr ""; op; v] :: l2)%list) d
        = Utils.hasFilterForDimension (Some (l1 ++ l2)%list) d).
Proof.
  split; [|split; [|split]].
  - reflexivity.
  - intros [fs|]; reflexivity.
  - intros [fs|]; reflexivity.
  - intros l1 l2 op v [d|]; [|reflexivity]. unfold Utils.hasFilterForDimension.
    destruct (String.eqb_spec d ""); [reflexivity|].
    rewrite !existsb_app. f_equal. simpl.
    assert (Hn : String.eqb "" d = false) by (apply String.eqb_neq; congruence).
    destruct op; cbn -[String.eqb]; rewrite Hn; reflexivity.
Qed.

(** ** Parameter validation of [src/unnamed/part_003] *)

(** C2 (counterexample): the query with the filter
    [["event:page", "is", ["/x"]]] added without a dimension does not pass:
    the input schema refuses the filter (its first element must be one of
    the filter operators), so the handler never runs. *)
Lemma C2_counterexample :
  Tool.plausible_query_call (fun _ => None) unit (fun _ => "{}")
    (fun _ => Resolved (Tool.mkResponse true "OK")) (fun _ => Resolved tt)
    (Tool.mkArgs (Some "a.com") (Some ["scroll_depth"]) (Some (DRString "7d")) None
       (Some [JArr [JStr "event:page"; JStr "is"; JArr [JStr "/x"]]]) None None None)
  = Ok Tool.InputRejected.
Proof. vm_compute. reflexivity. Qed.

(** C2 (amended): a [plausible_query] call with
    [{site_id:"a.com", metrics:["scroll_depth"], date_range:"7d"}] is
    answered with the validation error "Metrics scroll_depth require
    event:page"; adding [dimensions:["event:page"]] passes validation and
    the API is queried; adding instead the filter in the operator-first
    layout of this revision, [[["is","event:page",["/x"]]]], passes too; the
    dimension-first filter [[["event:page","is",["/x"]]]] is refused by the
    tool's input schema. *)
Theorem C2_scroll_depth_scenario (pf : string -> option Z) (Json : Type)
    (JSON_stringify : Json -> string) (fetch : Tool.PlausibleQuery -> outcome Tool.Response)
    (response_json : Tool.Response -> outcome Json) :
  Tool.plausible_query_call pf Json JSON_stringify fetch response_json
    (Tool.mkArgs (Some "a.com") (Some ["scroll_depth"]) (Some (DRString "7d")) None None None None None)
  = Ok (Tool.Reply ("Parameter validation error: " ++ "Metrics scroll_depth require event:page" ++ nl ++ nl
                    ++ "These metrics require either an 'event:page' dimension or filter to calculate page-specific metrics."))
  /\ Tool.plausible_query_call pf Json JSON_stringify fetch response_json
       (Tool.mkArgs (Some "a.com") (Some ["scroll_depth"]) (Some (DRString "7d"))
          (Some ["event:page"]) None None None None)
     = Ok (Tool.Reply (Tool.executeQuery Json JSON_stringify fetch response_json
             (Tool.mkQuery "a.com" ["scroll_depth"] (DRString "7d") (Some ["event:page"]) None None None None)))
  /\ Tool.plausible_query_call pf Json JSON_stringify fetch response_json
       (Tool.mkArgs (Some "a.com") (Some ["scroll_depth"]) (Some (DRString "7d")) None
          (Some [JArr [JStr "is"; JStr "event:page"; JArr [JStr "/x"]]]) None None None)
     = Ok (Tool.Reply (Tool.executeQuery Json JSON_stringify fetch response_json
             (Tool.mkQuery "a.com" ["scroll_depth"] (DRString "7d") None
                (Some [JArr [JStr "is"; JStr "event:page"; JArr [JStr "/x"]]]) None None None)))
  /\ Tool.plausible_query_call pf Json JSON_stringify fetch response_json
       (Tool.mkArgs (Some "a.com") (Some ["scroll_depth"]) (Some (DRString "7d")) None
          (Some [JArr [JStr "event:page"; JStr "is"; JArr [JStr "/x"]]]) None None None)
     = Ok Tool.InputRejected.
Proof. repeat split. Qed.

(** C4 (counterexample): a call with empty [metrics] is not answered with
    a [ValidationError] of this code: the input schema refuses it before
    the handler (and [validateAllParameters]) runs. *)
Lemma C4_counterexample :
  Tool.plausible_query_call (fun _ => None) unit (fun _ => "{}")
    (fun _ => Resolved (Tool.mkResponse true "OK")) (fun _ => Resolved tt)
    (Tool.mkArgs (Some "a.com") (Some []) (Some (DRString "7d")) None None None None None)
  = Ok Tool.InputRejected.
Proof. vm_compute. reflexivity. Qed.

(** C4 (amended): a call whose [site_id] is absent or empty, whose
    [metrics] is absent or empty, or whose [date_range] is absent is refused
    by the tool's input schema, whatever its other properties and whatever
    the API would answer: the handler does not run, so no semantic rule is
    evaluated and no [ValidationError] is built; the rejection is zod's,
    reported by the MCP SDK. *)
Theorem C4_required_fields_refused_by_schema (pf : string -> option Z) (Json : Type)
    (JSON_stringify : Json -> string) (fetch : Tool.PlausibleQuery -> outcome Tool.Response)
    (response_json : Tool.Response -> outcome Json) (args : Tool.ToolArgs) :
  Tool.arg_site_id args = None \/ Tool.arg_site_id args = Some ""
  \/ Tool.arg_metrics args = None \/ Tool.arg_metrics args = Some []
  \/ Tool.arg_date_range args = None ->
  Tool.plausible_query_call pf Json JSON_stringify fetch response_json args = Ok Tool.InputRejected.
Proof.
  intros H. unfold Tool.plausible_query_call, Tool.inputSchema.
  destruct args as [site ms dr ds fs ob inc pg]; cbn [Tool.arg_site_id Tool.arg_metrics Tool.arg_date_range] in *.
  destruct H as [->|[->|[->|[->| ->]]]];
    repeat match goal with
    | |- context [match ?x with Some _ => _ | None => _ end] => is_var x; destruct x
    end; try reflexivity;
    cbn [length String.length Nat.leb]; rewrite ?andb_false_r, ?andb_false_l; reflexivity.
Qed.

(** C4 at an empty [site_id], absent [metrics] and absent [date_range]. *)
Lemma C4_witness :
  Tool.plausible_query_call (fun _ => None) unit (fun _ => "{}")
    (fun _ => Resolved (Tool.mkResponse true "OK")) (fun _ => Resolved tt)
    (Tool.mkArgs (Some "") (Some ["visitors"]) (Some (DRString "7d")) None None None None None)
  = Ok Tool.InputRejected
  /\ Tool.plausible_query_call (fun _ => None) unit (fun _ => "{}")
    (fun _ => Resolved (Tool.mkResponse true "OK")) (fun _ => Resolved tt)
    (Tool.mkArgs (Some "a.com") None None (Some ["event:page"]) None None None None)
  = Ok Tool.InputRejected.
Proof.
  split.
  - apply C4_required_fields_refused_by_schema. right. left. reflexivity.
  - apply C4_required_fields_refused_by_schema. right. right. left. reflexivity.
Defined.

(** C6 (code bug): the conflict error lists the session metrics used but,
    of the offending dimensions, only those starting with [event:]; a
    [time:] dimension triggers the rule and is not named. *)
Theorem C6_session_event_conflict_details (parse_fallback : string -> option Z) :
  validateAllParameters parse_fallback
    (mkParams ["bounce_rate"] (Some ["event:page"]) None None (DRString "30d"))
  = Ok (Some (mkValidationError "Session metrics cannot be mixed with event dimensions"
                (Some "Session metrics (bounce_rate) calculate values per visit/session and cannot be used with event-level dimensions (event:page). Use visit dimensions instead.")))
  /\ validateAllParameters parse_fallback
       (mkParams ["bounce_rate"] (Some ["time:day"]) None None (DRString "30d"))
     = Ok (Some (mkValidationError "Session metrics cannot be mixed with event dimensions"
                   (Some "Session metrics (bounce_rate) calculate values per visit/session and cannot be used with event-level dimensions (). Use visit dimensions instead."))).
Proof. split; reflexivity. Qed.

(** The filter search raises no [ValidationError]. *)
Lemma js_index_no_validation_error (v : jval) (i : nat) (e : ValidationError) :
  js_index v i <> Throw (ValidationErr e).
Proof.
  destruct v; simpl; try discriminate. destruct (String.get i s); discriminate.
Qed.

Ltac no_ve :=
  repeat match goal with
  | |- context [js_index ?v ?i] =>
      let E := fresh in
      destruct (js_index v i) as [?|[|?]] eqn:E;
      [ | | exfalso; eapply js_index_no_validation_error; exact E]; cbn [bind]
  | |- context [if ?b then _ else _] => destruct b; cbn [bind]
  end; try discriminate.

Lemma legacy_cases_no_validation_error (filter op : jval) (a b : result bool) (d : string)
    (e : ValidationError) :
  (forall e', a <> Throw (ValidationErr e')) -> (forall e', b <> Throw (ValidationErr e')) ->
  Legacy.singleFilterCases filter op a b d <> Throw (ValidationErr e).
Proof.
  intros Ha Hb. unfold Legacy.singleFilterCases, Legacy.checkBehavioralFilter,
    Legacy.checkSimpleFilter.
  destruct (js_eq_str op "and" || js_eq_str op "or"); [apply Ha|].
  destruct (js_eq_str op "not"); [apply Hb|].
  no_ve.
Qed.

Lemma legacy_no_validation_error (v : jval) (d : string) :
  (forall e, Legacy.checkSingleFilter v d <> Throw (ValidationErr e))
  /\ (forall e, Legacy.hasFilterForDimension v d <> Throw (ValidationErr e)).
Proof.
  induction v as [| | | | |xs IH|] using jval_ind';
    try (split; intros e; simpl;
         unfold Legacy.checkSingleFilter_scalar, Legacy.hasFilterForDimension_scalar,
           Legacy.checkSimpleFilter; no_ve; fail).
  split.
    + intros e. destruct xs as [|x0 [|x1 xs']]; simpl;
        apply legacy_cases_no_validation_error; intros e'; simpl;
        unfold Legacy.checkSingleFilter_scalar; try discriminate.
      * inversion IH as [|? ? _ IH']. inversion IH' as [|? ? [H1 H2] _]. apply H2.
      * inversion IH as [|? ? _ IH']. inversion IH' as [|? ? [H1 H2] _]. apply H1.
    + intros e. simpl. destruct (Nat.eqb (length xs) 0); [discriminate|].
      induction IH as [|x xs [Hx _] _ IHxs]; [discriminate|].
      destruct (Legacy.checkSingleFilter x d) as [[]|[|e']] eqn:E; simpl;
        [discriminate | apply IHxs | discriminate | apply Hx].
Qed.

(** Every [ValidationError] a rule throws carries a [details] string. *)
Ltac rule_details :=
  repeat match goal with
  | |- context [Legacy.hasFilterForDimension ?f ?d] =>
      let E := fresh in
      destruct (Legacy.hasFilterForDimension f d) as [[]|[|?e]] eqn:E; cbn [bind];
      [ | | | exfalso; exact (proj2 (legacy_no_validation_error f d) _ E)]
  | |- context [if ?b then _ else _] => destruct b; cbn [bind]
  | |- context [match ?x with Some _ => _ | None => _ end] => destruct x
  end;
  cbn; try exact I; try discriminate.

Lemma validateDateRange_details (pf : string -> option Z) (dr : DateRange) :
  match validateDateRange pf dr with Throw (ValidationErr e) => details e <> None | _ => True end.
Proof. unfold validateDateRange, throw_validation. destruct dr; rule_details. Qed.

Lemma validatePercentageMetric_details (ms : list string) (ds : option (list string)) :
  match validatePercentageMetric ms ds with Throw (ValidationErr e) => details e <> None | _ => True end.
Proof. unfold validatePercentageMetric, throw_validation. rule_details. Qed.

Lemma validatePageMetrics_details ms ds fs :
  match validatePageMetrics ms ds fs with Throw (ValidationErr e) => details e <> None | _ => True end.
Proof. unfold validatePageMetrics, throw_validation. rule_details. Qed.

Lemma validateGoalMetrics_details ms ds fs :
  match validateGoalMetrics ms ds fs with Throw (ValidationErr e) => details e <> None | _ => True end.
Proof. unfold validateGoalMetrics, throw_validation. rule_details. Qed.

Lemma validateRevenueMetrics_details ms ds fs :
  match validateRevenueMetrics ms ds fs with Throw (ValidationErr e) => details e <> None | _ => True end.
Proof. unfold validateRevenueMetrics, throw_validation. rule_details. Qed.

Lemma validateSession_details ms ds :
  match validateSessionMetricsWithEventDimensions ms ds with
  | Throw (ValidationErr e) => details e <> None | _ => True end.
Proof. unfold validateSessionMetricsWithEventDimensions, throw_validation. rule_details. Qed.

Lemma validateTimeLabel_details inc ds :
  match validateTimeLabelRequirements inc ds with
  | Throw (ValidationErr e) => details e <> None | _ => True end.
Proof. unfold validateTimeLabelRequirements, throw_validation. rule_details. Qed.

(** The first rule of a sequence that throws a [ValidationError] carrying
    [details] gives an error carrying [details]. *)
Lemma first_failure_details (rules : list (result unit)) :
  Forall (fun r => match r with Throw (ValidationErr e) => details e <> None | _ => True end) rules ->
  match first_failure rules with Ok (Some e) => details e <> None | _ => True end.
Proof.
  induction 1 as [|r rules Hr _ IH]; [exact I|].
  destruct r as [[]|[|e]]; simpl; auto.
Qed.

(** [validateAllParameters] is [first_failure] over [rule_sequence]. *)
Lemma validateAllParameters_first_failure (pf : string -> option Z) (p : Params) :
  validateAllParameters pf p = first_failure (rule_sequence pf p).
Proof.
  destruct p as [ms ds fs inc dr].
  unfold validateAllParameters, validateMetricRequirements, rule_sequence; cbn [dateRange metrics dimensions filters include].
  destruct (validateDateRange pf dr) as [[]|[|e]]; cbn [bind first_failure catchValidation]; try reflexivity.
  destruct (validatePercentageMetric ms ds) as [[]|[|e]]; cbn [bind first_failure catchValidation]; try reflexivity.
  destruct (validatePageMetrics ms ds fs) as [[]|[|e]]; cbn [bind first_failure catchValidation]; try reflexivity.
  destruct (validateGoalMetrics ms ds fs) as [[]|[|e]]; cbn [bind first_failure catchValidation]; try reflexivity.
  destruct (validateRevenueMetrics ms ds fs) as [[]|[|e]]; cbn [bind first_failure catchValidation]; try reflexivity.
  destruct (validateSessionMetricsWithEventDimensions ms ds) as [[]|[|e]]; cbn [bind first_failure catchValidation]; try reflexivity.
  destruct (validateTimeLabelRequirements inc ds) as [[]|[|e]]; cbn [bind first_failure catchValidation]; reflexivity.
Qed.

(** C7 (counterexample): with six [scroll_depth] metrics and a
    [conversion_rate] metric, two rules are violated; the page-metric
    error is reported alone, and its message is longer than its details. *)
Lemma C7_counterexample :
  exists e dt,
    validateAllParameters (fun _ => None)
      (mkParams (repeat "scroll_depth" 6 ++ ["conversion_rate"])%list None None None (DRString "7d"))
    = Ok (Some e)
    /\ validateGoalMetrics (repeat "scroll_depth" 6 ++ ["conversion_rate"])%list None None <> Ok tt
    /\ details e = Some dt /\ Nat.ltb (String.length dt) (String.length (message e)) = true.
Proof.
  eexists; eexists; split; [vm_compute; reflexivity|].
  split; [vm_compute; discriminate|]. split; vm_compute; reflexivity.
Qed.

(** C7 (amended): [validateAllParameters] returns the verdict of the first
    rule of its fixed sequence that throws (a [ValidationError] is
    returned, any other exception rethrown), so later violations are not
    reported; every returned error carries a [details] string, not always
    longer than its [message]. *)
Theorem C7_first_failure_and_details (pf : string -> option Z) (p : Params) :
  validateAllParameters pf p = first_failure (rule_sequence pf p)
  /\ match validateAllParameters pf p with Ok (Some e) => details e <> None | _ => True end.
Proof.
  split; [apply validateAllParameters_first_failure|].
  rewrite validateAllParameters_first_failure. apply first_failure_details.
  unfold rule_sequence.
  apply Forall_cons; [apply validateDateRange_details|].
  apply Forall_cons; [apply validatePercentageMetric_details|].
  apply Forall_cons; [apply validatePageMetrics_details|].
  apply Forall_cons; [apply validateGoalMetrics_details|].
  apply Forall_cons; [apply validateRevenueMetrics_details|].
  apply Forall_cons; [apply validateSession_details|].
  apply Forall_cons; [apply validateTimeLabel_details|].
  apply Forall_nil.
Qed.

(** ** Calendar order of [YYYY-MM-DD] dates *)

Open Scope Z_scope.

Lemma div_succ_step (a k : Z) :
  0 < k -> (a + 1) / k - a / k = if (a + 1) mod k =? 0 then 1 else 0.
Proof.
  intros Hk. pose proof (Z.mod_pos_bound a k Hk). pose proof (Z.mod_pos_bound (a + 1) k Hk).
  pose proof (Z.div_mod a k ltac:(lia)). pose proof (Z.div_mod (a + 1) k ltac:(lia)).
  destruct (Z.eqb_spec ((a + 1) mod k) 0); nia.
Qed.

Lemma DayFromYear_succ (y : Z) : DayFromYear (y + 1) = DayFromYear y + DaysInYear y.
Proof.
  unfold DayFromYear, DaysInYear, InLeapYear.
  replace (y + 1 - 1969) with (y - 1969 + 1) by lia.
  replace (y + 1 - 1901) with (y - 1901 + 1) by lia.
  replace (y + 1 - 1601) with (y - 1601 + 1) by lia.
  pose proof (div_succ_step (y - 1969) 4 ltac:(lia)).
  pose proof (div_succ_step (y - 1901) 100 ltac:(lia)).
  pose proof (div_succ_step (y - 1601) 400 ltac:(lia)).
  replace (y - 1969 + 1) with (y + (-492) * 4) in * by lia.
  replace (y - 1901 + 1) with (y + (-19) * 100) in * by lia.
  replace (y - 1601 + 1) with (y + (-4) * 400) in * by lia.
  rewrite !Z_mod_plus_full in *.
  assert (H100 : y mod 100 = 0 -> y mod 4 = 0).
  { intros Hm. apply Z.mod_divide in Hm as [k ->]; [|lia].
    replace (k * 100) with (k * 25 * 4) by ring. apply Z.mod_mul. lia. }
  assert (H400 : y mod 400 = 0 -> y mod 100 = 0).
  { intros Hm. apply Z.mod_divide in Hm as [k ->]; [|lia].
    replace (k * 400) with (k * 4 * 100) by ring. apply Z.mod_mul. lia. }
  destruct (Z.eqb_spec (y mod 4) 0), (Z.eqb_spec (y mod 100) 0), (Z.eqb_spec (y mod 400) 0);
    cbn [andb orb negb] in *; lia.
Qed.

Lemma DayFromYear_mono (y : Z) (n : nat) :
  DayFromYear y + 365 * Z.of_nat n <= DayFromYear (y + Z.of_nat n).
Proof.
  induction n as [|n IH]; [cbn [Z.of_nat]; rewrite Z.mul_0_r, !Z.add_0_r; lia|].
  replace (y + Z.of_nat (S n)) with (y + Z.of_nat n + 1) by lia.
  rewrite DayFromYear_succ. unfold DaysInYear. destruct (InLeapYear _); lia.
Qed.

Lemma month_cases (m : Z) :
  1 <= m <= 12 ->
  m = 1 \/ m = 2 \/ m = 3 \/ m = 4 \/ m = 5 \/ m = 6 \/ m = 7 \/ m = 8 \/ m = 9 \/ m = 10 \/ m = 11 \/ m = 12.
Proof. lia. Qed.

Lemma DaysBeforeMonth_end (y m : Z) :
  1 <= m <= 12 -> DaysBeforeMonth y m + DaysInMonth y m <= DaysInYear y.
Proof.
  intros Hm. unfold DaysBeforeMonth, DaysInMonth, DaysInYear.
  destruct (InLeapYear y);
    destruct (month_cases m Hm) as [->|[->|[->|[->|[->|[->|[->|[->|[->|[->|[->| ->]]]]]]]]]]];
    simpl; lia.
Qed.

Lemma DaysBeforeMonth_lt (y m1 m2 : Z) :
  1 <= m1 <= 12 -> 1 <= m2 <= 12 -> m1 < m2 ->
  DaysBeforeMonth y m1 + DaysInMonth y m1 <= DaysBeforeMonth y m2.
Proof.
  intros H1 H2 Hlt. unfold DaysBeforeMonth, DaysInMonth.
  destruct (InLeapYear y);
    destruct (month_cases m1 H1) as [->|[->|[->|[->|[->|[->|[->|[->|[->|[->|[->| ->]]]]]]]]]]];
    destruct (month_cases m2 H2) as [->|[->|[->|[->|[->|[->|[->|[->|[->|[->|[->| ->]]]]]]]]]]];
    simpl; lia.
Qed.

Lemma DaysBeforeMonth_nonneg (y m : Z) : 1 <= m <= 12 -> 0 <= DaysBeforeMonth y m.
Proof.
  intros Hm. unfold DaysBeforeMonth.
  destruct (InLeapYear y);
    destruct (month_cases m Hm) as [->|[->|[->|[->|[->|[->|[->|[->|[->|[->|[->| ->]]]]]]]]]]];
    simpl; lia.
Qed.

Lemma valid_ymd_bounds (y m d : Z) :
  valid_ymd y m d = true -> 0 <= y <= 9999 /\ 1 <= m <= 12 /\ 1 <= d <= DaysInMonth y m.
Proof.
  unfold valid_ymd. intros H.
  repeat rewrite andb_true_iff in H. rewrite !Z.leb_le in H. lia.
Qed.

(** Lexicographic order on valid dates is the order of their day numbers. *)
Lemma day_number_lt (y1 m1 d1 y2 m2 d2 : Z) :
  valid_ymd y1 m1 d1 = true -> valid_ymd y2 m2 d2 = true ->
  date_ltb (y1, m1, d1) (y2, m2, d2) = true -> day_number y1 m1 d1 < day_number y2 m2 d2.
Proof.
  intros V1 V2 Hlt.
  apply valid_ymd_bounds in V1 as (Y1 & M1 & D1). apply valid_ymd_bounds in V2 as (Y2 & M2 & D2).
  unfold date_ltb in Hlt. unfold day_number.
  destruct (Z.ltb_spec y1 y2).
  - pose proof (DaysBeforeMonth_end y1 m1 M1).
    pose proof (DayFromYear_succ y1).
    pose proof (DayFromYear_mono (y1 + 1) (Z.to_nat (y2 - y1 - 1))).
    rewrite Z2Nat.id in * by lia. replace (y1 + 1 + (y2 - y1 - 1)) with y2 in * by lia.
    pose proof (DaysBeforeMonth_nonneg y2 m2 M2).
    lia.
  - simpl in Hlt. apply andb_true_iff in Hlt as [Hy Hm]. apply Z.eqb_eq in Hy. subst y2.
    destruct (Z.ltb_spec m1 m2).
    + pose proof (DaysBeforeMonth_lt y1 m1 m2 M1 M2 ltac:(lia)). lia.
    + simpl in Hm. apply andb_true_iff in Hm as [Hm Hd]. apply Z.eqb_eq in Hm. subst m2.
      apply Z.ltb_lt in Hd. lia.
Qed.

Lemma date_ltb_total (a b : Z * Z * Z) :
  date_ltb a b = false -> a = b \/ date_ltb b a = true.
Proof.
  destruct a as [[y1 m1] d1], b as [[y2 m2] d2]. unfold date_ltb.
  destruct (Z.ltb_spec y1 y2), (Z.ltb_spec y2 y1), (Z.eqb_spec y1 y2), (Z.eqb_spec y2 y1),
    (Z.ltb_spec m1 m2), (Z.ltb_spec m2 m1), (Z.eqb_spec m1 m2), (Z.eqb_spec m2 m1),
    (Z.ltb_spec d1 d2), (Z.ltb_spec d2 d1); simpl; intros Hf; try discriminate;
    first [right; reflexivity | left; f_equal; [f_equal|]; lia | lia].
Qed.

Lemma MakeDate_le_iff (y1 m1 d1 y2 m2 d2 : Z) :
  valid_ymd y1 m1 d1 = true -> valid_ymd y2 m2 d2 = true ->
  (MakeDate_ymd y2 m2 d2 <=? MakeDate_ymd y1 m1 d1) = negb (date_ltb (y1, m1, d1) (y2, m2, d2)).
Proof.
  intros V1 V2. unfold MakeDate_ymd, msPerDay. fold (day_number y1 m1 d1). fold (day_number y2 m2 d2).
  destruct (date_ltb (y1, m1, d1) (y2, m2, d2)) eqn:E; simpl.
  - pose proof (day_number_lt _ _ _ _ _ _ V1 V2 E). apply Z.leb_gt. lia.
  - apply Z.leb_le. destruct (date_ltb_total _ _ E) as [Heq | Hgt].
    + injection Heq as -> -> ->. lia.
    + pose proof (day_number_lt _ _ _ _ _ _ V2 V1 Hgt). lia.
Qed.

(** C5: for a custom range of two valid [YYYY-MM-DD] dates, [validateDateRange]
    passes exactly when the start date is strictly before the end date in
    calendar order, and otherwise throws "Invalid date range" naming both
    dates; [validateAllParameters] then returns that error, whatever the
    other parameters. *)
Theorem C5_custom_range_calendar_order (pf : string -> option Z) (s1 s2 : string)
    (y1 m1 d1 y2 m2 d2 : Z)
    (P1 : parse_ymd s1 = Some (y1, m1, d1)) (V1 : valid_ymd y1 m1 d1 = true)
    (P2 : parse_ymd s2 = Some (y2, m2, d2)) (V2 : valid_ymd y2 m2 d2 = true) :
  validateDateRange pf (DRArray [s1; s2])
  = (if date_ltb (y1, m1, d1) (y2, m2, d2) then Ok tt
     else throw_validation "Invalid date range"
            ("Start date (" ++ s1 ++ ") must be before end date (" ++ s2 ++ ")"))
  /\ (forall ms ds fs inc,
        date_ltb (y1, m1, d1) (y2, m2, d2) = false ->
        validateAllParameters pf (mkParams ms ds fs inc (DRArray [s1; s2]))
        = Ok (Some (mkValidationError "Invalid date range"
                     (Some ("Start date (" ++ s1 ++ ") must be before end date (" ++ s2 ++ ")"))))).
Proof.
  assert (E : validateDateRange pf (DRArray [s1; s2])
    = (if date_ltb (y1, m1, d1) (y2, m2, d2) then Ok tt
       else throw_validation "Invalid date range"
              ("Start date (" ++ s1 ++ ") must be before end date (" ++ s2 ++ ")"))).
  { unfold validateDateRange. cbn [nth_error new_Date]. unfold Date_parse.
    rewrite P1, P2, V1, V2, (MakeDate_le_iff _ _ _ _ _ _ V1 V2).
    destruct (date_ltb _ _); reflexivity. }
  split; [exact E|].
  intros ms ds fs inc Hge. unfold validateAllParameters. cbn [dateRange].
  rewrite E, Hge. reflexivity.
Qed.

(** C5 at [2024-03-01]/[2024-02-29] (leap day), equal dates and an
    increasing pair. *)
Lemma C5_witness :
  validateDateRange (fun _ => None) (DRArray ["2024-03-01"; "2024-02-29"])
  = throw_validation "Invalid date range"
      "Start date (2024-03-01) must be before end date (2024-02-29)"
  /\ validateDateRange (fun _ => None) (DRArray ["2023-12-31"; "2024-01-01"]) = Ok tt.
Proof.
  split.
  - exact (proj1 (C5_custom_range_calendar_order (fun _ => None) "2024-03-01" "2024-02-29"
                    2024 3 1 2024 2 29 eq_refl eq_refl eq_refl eq_refl)).
  - exact (proj1 (C5_custom_range_calendar_order (fun _ => None) "2023-12-31" "2024-01-01"
                    2023 12 31 2024 1 1 eq_refl eq_refl eq_refl eq_refl)).
Defined.

(** ** Further properties of the code *)

Lemma includes_In (xs : list string) (x : string) : includes xs x = true -> In x xs.
Proof.
  unfold includes. intros H. apply existsb_exists in H as [y [Hy Heq]].
  apply String.eqb_eq in Heq. subst. exact Hy.
Qed.

Lemma js_enum_In (values : list string) (v : jval) :
  js_enum values v = true -> exists s, v = JStr s /\ In s values.
Proof. destruct v; try discriminate. intros H. eexists. split; [reflexivity|]. now apply includes_In. Qed.

Lemma js_eq_str_true (v : jval) (s : string) : js_eq_str v s = true -> v = JStr s.
Proof. destruct v; try discriminate. simpl. intros H. apply String.eqb_eq in H. now subst. Qed.

Lemma filterSchema_all (fs : list jval) :
  (fix all (l : list jval) : bool :=
     match l with [] => true | f :: l' => filterSchema f && all l' end) fs
  = forallb filterSchema fs.
Proof. induction fs as [|f fs IH]; simpl; [reflexivity|now rewrite IH]. Qed.

Lemma filterSchema_array (v : jval) : filterSchema v = true -> js_is_array v = true.
Proof. destruct v; simpl; try discriminate; reflexivity. Qed.

Lemma legacy_check_arrays (fs : list jval) (d : string) :
  Forall (fun f => js_is_array f = true) fs ->
  Legacy.checkSingleFilter (JArr fs) d = Ok false.
Proof.
  intros H. destruct fs as [|f0 [|f1 fs]]; [reflexivity| |].
  - inversion H as [|? ? H0 _]; subst. destruct f0; try discriminate. reflexivity.
  - inversion H as [|? ? H0 H']; subst. inversion H' as [|? ? H1 _]; subst.
    destruct f0; try discriminate. destruct f1; try discriminate. reflexivity.
Qed.

Lemma legacy_hasFilter_ok (xs : list jval) (d : string) :
  Forall (fun v => filterSchema v = true -> exists b, Legacy.checkSingleFilter v d = Ok b) xs ->
  forallb filterSchema xs = true ->
  exists b, Legacy.hasFilterForDimension (JArr xs) d = Ok b.
Proof.
  induction 1 as [|x xs Hx Hxs IH]; intros Hall; [exists false; reflexivity|].
  apply andb_true_iff in Hall as [H1 H2].
  rewrite legacy_hasFilter_cons. destruct (Hx H1) as [b Hb]. rewrite Hb. cbn [bind].
  destruct b; [eexists; reflexivity|]. now apply IH.
Qed.

Ltac ok_by_cases :=
  cbn;
  repeat match goal with |- context [if ?b then _ else _] => destruct b end;
  eexists; reflexivity.

Lemma legacy_check_and (x : jval) (d : string) :
  Legacy.checkSingleFilter (JArr [JStr "and"; x]) d = Legacy.hasFilterForDimension x d.
Proof. reflexivity. Qed.
Lemma legacy_check_or (x : jval) (d : string) :
  Legacy.checkSingleFilter (JArr [JStr "or"; x]) d = Legacy.hasFilterForDimension x d.
Proof. reflexivity. Qed.
Lemma legacy_check_not (x : jval) (d : string) :
  Legacy.checkSingleFilter (JArr [JStr "not"; x]) d = Legacy.checkSingleFilter x d.
Proof. reflexivity. Qed.

Lemma legacy_schema_check_ok_aux (v : jval) (d : string) :
  (filterSchema v = true -> exists b, Legacy.checkSingleFilter v d = Ok b)
  /\ match v with
     | JArr xs => Forall (fun v => filterSchema v = true -> exists b, Legacy.checkSingleFilter v d = Ok b) xs
     | _ => True
     end.
Proof.
  induction v as [| | | | |xs IH|] using jval_ind'; try (split; [discriminate|exact I]).
  split; [|eapply Forall_impl; [|exact IH]; intros ? []; assumption].
  intros H. cbn [filterSchema] in H.
  apply orb_true_iff in H as [H|H]; [apply orb_true_iff in H as [H|H]|];
    [apply orb_true_iff in H as [H|H]| |].
  - (* simple *)
    destruct xs as [|op [|dim [|vals [|opts [|? ?]]]]]; try discriminate;
      cbn [simpleFilterSchema] in H; split_bools;
      apply js_enum_In in H as [o [-> Ho]];
      repeat (destruct Ho as [<-|Ho]; [ok_by_cases|]); destruct Ho.
  - (* segment *)
    destruct xs as [|a [|b [|[| | | | |ids|] [|? ?]]]]; try discriminate.
    cbn [segmentFilterSchema] in H. split_bools.
    apply js_eq_str_true in H. apply js_eq_str_true in H1. subst. ok_by_cases.
  - (* logical *)
    destruct xs as [|op [|[| | | | |fs|] [|? ?]]]; try discriminate.
    rewrite filterSchema_all in H. split_bools.
    apply js_enum_In in H as [o [-> Ho]].
    inversion IH as [|? ? _ IH']; subst. inversion IH' as [|? ? [_ IHfs] _]; subst.
    destruct Ho as [<-|[<-|[<-|[]]]].
    + rewrite legacy_check_and. now apply legacy_hasFilter_ok.
    + rewrite legacy_check_or. now apply legacy_hasFilter_ok.
    + rewrite legacy_check_not, legacy_check_arrays; [eexists; reflexivity|].
      rewrite forallb_forall in H0. apply Forall_forall. intros f Hf.
      now apply filterSchema_array, H0.
  - (* behavioral *)
    destruct xs as [|op [|s [|? ?]]]; try discriminate. split_bools.
    apply js_enum_In in H as [o [-> Ho]].
    destruct s as [| | | | |ys|]; try discriminate.
    destruct ys as [|y0 [|y1 ys]]; [discriminate|destruct y0; discriminate|].
    destruct Ho as [<-|[<-|[]]]; ok_by_cases.
Qed.

(** X1: on a filter list that [filterSchema] accepts, the search of
    [part_003] returns a boolean and raises no exception. *)
Theorem legacy_search_total_on_schema_filters (fs : list jval) (d : string) :
  forallb filterSchema fs = true ->
  exists b, Legacy.hasFilterForDimension (JArr fs) d = Ok b.
Proof.
  intros H. apply legacy_hasFilter_ok; [|exact H].
  apply Forall_forall. intros v _. apply (legacy_schema_check_ok_aux v d).
Qed.

Lemma legacy_search_total_on_schema_filters_witness :
  forallb filterSchema
    [JArr [JStr "not"; JArr [JArr [JStr "is"; JStr "event:page"; JArr [JStr "/x"]]]];
     JArr [JStr "has_done"; JArr [JStr "is"; JStr "event:goal"; JArr [JStr "Signup"]]]] = true
  /\ exists b, Legacy.hasFilterForDimension
    (JArr [JArr [JStr "not"; JArr [JArr [JStr "is"; JStr "event:page"; JArr [JStr "/x"]]]];
           JArr [JStr "has_done"; JArr [JStr "is"; JStr "event:goal"; JArr [JStr "Signup"]]]])
    "event:page" = Ok b.
Proof.
  split; [reflexivity|].
  apply legacy_search_total_on_schema_filters. reflexivity.
Defined.

(** X2: a schema-valid [not] node is never a match of the search of
    [part_003], whatever the filters it negates. *)
Theorem legacy_not_node_never_matches (fs : list jval) (d : string) :
  forallb filterSchema fs = true ->
  Legacy.checkSingleFilter (JArr [JStr "not"; JArr fs]) d = Ok false.
Proof.
  intros H. rewrite legacy_check_not. apply legacy_check_arrays.
  rewrite forallb_forall in H. apply Forall_forall. intros f Hf.
  now apply filterSchema_array, H.
Qed.

Lemma legacy_not_node_never_matches_witness :
  forallb filterSchema [JArr [JStr "is"; JStr "event:page"; JArr [JStr "/x"]]] = true
  /\ Legacy.checkSingleFilter
       (JArr [JStr "not"; JArr [JArr [JStr "is"; JStr "event:page"; JArr [JStr "/x"]]]])
       "event:page" = Ok false.
Proof.
  split; [reflexivity|]. apply legacy_not_node_never_matches. reflexivity.
Defined.

Lemma legacy_filters_total (fl : option (list jval)) (d : string) :
  match fl with Some fs => forallb filterSchema fs = true | None => True end ->
  exists b, Legacy.hasFilterForDimension (filters_jval fl) d = Ok b.
Proof.
  destruct fl as [fs|]; intros H; [|exists false; reflexivity].
  apply legacy_hasFilter_ok; [|exact H].
  apply Forall_forall. intros v _. apply (legacy_schema_check_ok_aux v d).
Qed.

Ltac no_type_error :=
  unfold throw_validation;
  repeat match goal with
  | |- context [match ?x with _ => _ end] => destruct x
  | |- context [if ?b then _ else _] => destruct b
  end; discriminate.

Lemma validateDateRange_no_type_error pf dr : validateDateRange pf dr <> Throw TypeError.
Proof. unfold validateDateRange. no_type_error. Qed.

Lemma validatePercentageMetric_no_type_error ms ds :
  validatePercentageMetric ms ds <> Throw TypeError.
Proof. unfold validatePercentageMetric. no_type_error. Qed.

Lemma validateSession_no_type_error ms ds :
  validateSessionMetricsWithEventDimensions ms ds <> Throw TypeError.
Proof. unfold validateSessionMetricsWithEventDimensions. cbv zeta. no_type_error. Qed.

Lemma validateTimeLabel_no_type_error inc ds :
  validateTimeLabelRequirements inc ds <> Throw TypeError.
Proof. unfold validateTimeLabelRequirements. no_type_error. Qed.

Lemma validateMetricRequirements_no_type_error ms ds fl :
  match fl with Some fs => forallb filterSchema fs = true | None => True end ->
  validateMetricRequirements ms ds fl <> Throw TypeError.
Proof.
  intros Hf.
  destruct (legacy_filters_total fl "event:page" Hf) as [bp Hp].
  destruct (legacy_filters_total fl "event:goal" Hf) as [bg Hg].
  unfold validateMetricRequirements.
  pose proof (validatePercentageMetric_no_type_error ms ds) as H1.
  destruct (validatePercentageMetric ms ds) as [[]|[|e]]; cbn [bind]; [|congruence|discriminate].
  unfold validatePageMetrics, validateGoalMetrics, validateRevenueMetrics. cbv zeta.
  rewrite Hp, Hg. cbn [bind]. unfold throw_validation.
  repeat match goal with
  | |- context [if ?b then _ else _] => destruct b; cbn [bind]
  end; discriminate.
Qed.

Lemma validateAllParameters_total pf p :
  match filters p with Some fs => forallb filterSchema fs = true | None => True end ->
  exists r, validateAllParameters pf p = Ok r.
Proof.
  intros Hf. unfold validateAllParameters.
  pose proof (validateDateRange_no_type_error pf (dateRange p)) as H1.
  pose proof (validateMetricRequirements_no_type_error (metrics p) (dimensions p) (filters p) Hf) as H2.
  pose proof (validateSession_no_type_error (metrics p) (dimensions p)) as H3.
  pose proof (validateTimeLabel_no_type_error (include p) (dimensions p)) as H4.
  destruct (validateDateRange pf (dateRange p)) as [[]|[|e]]; cbn [bind catchValidation];
    [|congruence|eexists; reflexivity].
  destruct (validateMetricRequirements _ _ _) as [[]|[|e]]; cbn [bind catchValidation];
    [|congruence|eexists; reflexivity].
  destruct (validateSessionMetricsWithEventDimensions _ _) as [[]|[|e]]; cbn [bind catchValidation];
    [|congruence|eexists; reflexivity].
  destruct (validateTimeLabelRequirements _ _) as [[]|[|e]]; cbn [bind catchValidation];
    [|congruence|eexists; reflexivity].
  eexists; reflexivity.
Qed.

(** X3: when every filter is accepted by [filterSchema], the
    [plausible_query] handler always answers with a text and never rejects. *)
Theorem handler_always_replies (pf : string -> option Z) (Json : Type)
    (JSON_stringify : Json -> string) (fetch : Tool.PlausibleQuery -> outcome Tool.Response)
    (response_json : Tool.Response -> outcome Json) (q : Tool.PlausibleQuery) :
  match Tool.query_filters q with Some fs => forallb filterSchema fs = true | None => True end ->
  exists s, Tool.plausible_query_handler pf Json JSON_stringify fetch response_json q = Ok s.
Proof.
  intros Hf. unfold Tool.plausible_query_handler.
  destruct (validateAllParameters_total pf (Tool.validation_params q) Hf) as [r ->].
  cbn [bind]. destruct r; eexists; reflexivity.
Qed.

Lemma handler_always_replies_witness :
  forallb filterSchema
    [JArr [JStr "not"; JArr [JArr [JStr "is"; JStr "event:page"; JArr [JStr "/x"]]]]] = true
  /\ exists s, Tool.plausible_query_handler (fun _ => None) unit (fun _ => "{}")
    (fun _ => Rejected (ThrownError "offline")) (fun _ => Resolved tt)
    (Tool.mkQuery "a.com" ["scroll_depth"] (DRString "7d") None
       (Some [JArr [JStr "not"; JArr [JArr [JStr "is"; JStr "event:page"; JArr [JStr "/x"]]]]])
       None None None) = Ok s.
Proof.
  split; [reflexivity|].
  apply handler_always_replies. reflexivity.
Defined.

(** X4: a [date_range] accepted by the tool's schema always passes
    [validateDateRange]. *)
Theorem dateRange_schema_passes_validation (pf : string -> option Z) (dr : DateRange) :
  dateRangeSchema pf dr = true -> validateDateRange pf dr = Ok tt.
Proof.
  destruct dr as [s|xs]; [reflexivity|]. cbn [dateRangeSchema]. unfold datePair.
  intros H. split_bools.
  destruct xs as [|a [|b [|? ?]]]; try discriminate.
  cbn [nth_error] in H0. unfold validateDateRange. cbn [nth_error].
  destruct (new_Date pf (Some a)) as [x|]; [|discriminate].
  destruct (new_Date pf (Some b)) as [y|]; [|discriminate].
  apply Z.ltb_lt in H0. destruct (Z.leb_spec y x); [lia|reflexivity].
Qed.

Lemma dateRange_schema_passes_validation_witness :
  dateRangeSchema (fun _ => None) (DRArray ["2024-02-28"; "2024-02-29"]) = true
  /\ validateDateRange (fun _ => None) (DRArray ["2024-02-28"; "2024-02-29"]) = Ok tt.
Proof.
  split; [vm_compute; reflexivity|].
  apply dateRange_schema_passes_validation. vm_compute. reflexivity.
Defined.

Lemma prefix_app (p s : string) : String.prefix p s = true -> exists r, s = (p ++ r)%string.
Proof.
  revert s. induction p as [|c p IH]; intros s H; [exists s; reflexivity|].
  destruct s as [|c' s]; [discriminate|]. cbn in H.
  destruct (Ascii.ascii_dec c c') as [<-|]; [|discriminate].
  destruct (IH s H) as [r ->]. exists r. reflexivity.
Qed.

Ltac dimension_cases H :=
  unfold dimensionSchema in H;
  rewrite !orb_true_iff in H; destruct H as [[[H|H]|H]|H];
  [apply includes_In in H; repeat (destruct H as [<-|H]; [reflexivity|]); destruct H
  |apply includes_In in H; repeat (destruct H as [<-|H]; [reflexivity|]); destruct H
  |apply includes_In in H; repeat (destruct H as [<-|H]; [reflexivity|]); destruct H
  |apply prefix_app in H as [r ->]; reflexivity].

(** On a dimension the schema accepts, the session rule's prefix test picks
    exactly the dimensions that are neither visit dimensions nor [time]. *)
Lemma dimension_event_or_time (d : string) :
  dimensionSchema d = true ->
  (startsWith d "event:" || startsWith d "time:")
  = negb (includes visitDimensions d || String.eqb d "time").
Proof. intros H. dimension_cases H. Qed.

Lemma dimension_time (d : string) :
  dimensionSchema d = true ->
  (String.eqb d "time" || startsWith d "time:") = includes timeDimensions d.
Proof. intros H. dimension_cases H. Qed.

(** X5: with a session metric requested and dimensions the schema accepts,
    the session rule passes exactly when every dimension is a visit
    dimension or [time]. *)
Theorem session_rule_allows_only_visit_and_time (ms ds : list string) :
  forallb dimensionSchema ds = true ->
  existsb (includes sessionMetrics) ms = true ->
  (validateSessionMetricsWithEventDimensions ms (Some ds) = Ok tt
   <-> forallb (fun d => includes visitDimensions d || String.eqb d "time") ds = true).
Proof.
  intros Hds Hms.
  assert (E : existsb (fun d => startsWith d "event:" || startsWith d "time:") ds
              = negb (forallb (fun d => includes visitDimensions d || String.eqb d "time") ds)).
  { induction ds as [|d ds IH]; [reflexivity|].
    cbn [forallb] in Hds. apply andb_true_iff in Hds as [Hd Hds].
    cbn [existsb forallb]. rewrite (dimension_event_or_time d Hd), (IH Hds).
    rewrite negb_andb. reflexivity. }
  unfold validateSessionMetricsWithEventDimensions. cbv zeta. cbn [dims_some].
  rewrite Hms, E. unfold throw_validation.
  destruct (forallb (fun d => includes visitDimensions d || String.eqb d "time") ds); cbn; split; intros H; congruence.
Qed.

Lemma session_rule_allows_only_visit_and_time_witness :
  validateSessionMetricsWithEventDimensions ["bounce_rate"] (Some ["visit:source"; "time"]) = Ok tt
  /\ validateSessionMetricsWithEventDimensions ["visit_duration"] (Some ["time:day"]) <> Ok tt.
Proof.
  split.
  - apply (session_rule_allows_only_visit_and_time ["bounce_rate"] ["visit:source"; "time"]);
      reflexivity.
  - rewrite (session_rule_allows_only_visit_and_time ["visit_duration"] ["time:day"]);
      [discriminate|reflexivity|reflexivity].
Defined.

(** X6: with [include.time_labels] set and dimensions the schema accepts,
    the time-label rule passes exactly when some dimension is one of the
    schema's time dimensions. *)
Theorem time_labels_rule_needs_time_dimension (i : Include) (ds : list string) :
  time_labels i = Some true ->
  forallb dimensionSchema ds = true ->
  (validateTimeLabelRequirements (Some i) (Some ds) = Ok tt
   <-> existsb (includes timeDimensions) ds = true).
Proof.
  intros Ht Hds.
  assert (E : existsb (fun d => String.eqb d "time" || startsWith d "time:") ds
              = existsb (includes timeDimensions) ds).
  { induction ds as [|d ds IH]; [reflexivity|].
    cbn [forallb] in Hds. apply andb_true_iff in Hds as [Hd Hds].
    cbn [existsb]. rewrite (dimension_time d Hd), (IH Hds). reflexivity. }
  unfold validateTimeLabelRequirements. rewrite Ht. cbv zeta.
  rewrite E. unfold throw_validation.
  destruct (existsb (includes timeDimensions) ds); cbn; split; intros H; congruence.
Qed.

Lemma time_labels_rule_needs_time_dimension_witness :
  validateTimeLabelRequirements (Some (mkInclude None (Some true) None))
    (Some ["visit:source"; "time:week"]) = Ok tt
  /\ validateTimeLabelRequirements (Some (mkInclude None (Some true) None))
       (Some ["event:props:time:day"]) <> Ok tt.
Proof.
  split.
  - apply (time_labels_rule_needs_time_dimension (mkInclude None (Some true) None)
             ["visit:source"; "time:week"]); reflexivity.
  - rewrite (time_labels_rule_needs_time_dimension (mkInclude None (Some true) None)
               ["event:props:time:day"]); [discriminate|reflexivity|reflexivity].
Defined.

Lemma validateAllParameters_details (pf : string -> option Z) (p : Params) :
  match validateAllParameters pf p with Ok (Some e) => details e <> None | _ => True end.
Proof.
  rewrite validateAllParameters_first_failure. apply first_failure_details.
  unfold rule_sequence.
  apply Forall_cons; [apply validateDateRange_details|].
  apply Forall_cons; [apply validatePercentageMetric_details|].
  apply Forall_cons; [apply validatePageMetrics_details|].
  apply Forall_cons; [apply validateGoalMetrics_details|].
  apply Forall_cons; [apply validateRevenueMetrics_details|].
  apply Forall_cons; [apply validateSession_details|].
  apply Forall_cons; [apply validateTimeLabel_details|].
  apply Forall_nil.
Qed.

(** X7: when validation returns an error, the handler replies with its
    message and details, and the reply does not depend on the API client:
    the API is not queried. *)
Theorem handler_validation_error_reply (pf : string -> option Z)
    (Json1 : Type) (stringify1 : Json1 -> string)
    (fetch1 : Tool.PlausibleQuery -> outcome Tool.Response) (json1 : Tool.Response -> outcome Json1)
    (Json2 : Type) (stringify2 : Json2 -> string)
    (fetch2 : Tool.PlausibleQuery -> outcome Tool.Response) (json2 : Tool.Response -> outcome Json2)
    (q : Tool.PlausibleQuery) (e : ValidationError) :
  validateAllParameters pf (Tool.validation_params q) = Ok (Some e) ->
  exists d, details e = Some d
    /\ Tool.plausible_query_handler pf Json1 stringify1 fetch1 json1 q
       = Ok ("Parameter validation error: " ++ message e ++ nl ++ nl ++ d)
    /\ Tool.plausible_query_handler pf Json2 stringify2 fetch2 json2 q
       = Tool.plausible_query_handler pf Json1 stringify1 fetch1 json1 q.
Proof.
  intros H. pose proof (validateAllParameters_details pf (Tool.validation_params q)) as Hd.
  rewrite H in Hd. destruct (details e) as [d|] eqn:Ed; [|congruence].
  exists d. unfold Tool.plausible_query_handler. rewrite H. cbn [bind]. rewrite Ed.
  split; [reflexivity|split; reflexivity].
Qed.

Lemma handler_validation_error_reply_witness :
  exists d,
    details (mkValidationError "Metrics scroll_depth require event:page"
      (Some "These metrics require either an 'event:page' dimension or filter to calculate page-specific metrics.")) = Some d
    /\ Tool.plausible_query_handler (fun _ => None) unit (fun _ => "{}")
         (fun _ => Rejected (ThrownError "offline")) (fun _ => Resolved tt)
         (Tool.mkQuery "a.com" ["scroll_depth"] (DRString "7d") None None None None None)
       = Ok ("Parameter validation error: " ++ "Metrics scroll_depth require event:page" ++ nl ++ nl ++ d)
    /\ Tool.plausible_query_handler (fun _ => None) string (fun s => s)
         (fun _ => Resolved (Tool.mkResponse true "OK")) (fun _ => Resolved "data")
         (Tool.mkQuery "a.com" ["scroll_depth"] (DRString "7d") None None None None None)
       = Tool.plausible_query_handler (fun _ => None) unit (fun _ => "{}")
         (fun _ => Rejected (ThrownError "offline")) (fun _ => Resolved tt)
         (Tool.mkQuery "a.com" ["scroll_depth"] (DRString "7d") None None None None None).
Proof.
  apply (handler_validation_error_reply (fun _ => None) unit (fun _ => "{}")
    (fun _ => Rejected (ThrownError "offline")) (fun _ => Resolved tt) string (fun s => s)
    (fun _ => Resolved (Tool.mkResponse true "OK")) (fun _ => Resolved "data")).
  vm_compute. reflexivity.
Defined.

(** X8: when validation passes, a failed API call is reported in the reply
    text: a non-ok response as
    [Error querying Plausible API: Plausible API error: <statusText>], a
    rejected [fetch] as [Error querying Plausible API: <message>]. *)
Theorem handler_api_failure_reply (pf : string -> option Z) (Json : Type)
    (JSON_stringify : Json -> string) (fetch : Tool.PlausibleQuery -> outcome Tool.Response)
    (response_json : Tool.Response -> outcome Json) (q : Tool.PlausibleQuery) :
  validateAllParameters pf (Tool.validation_params q) = Ok None ->
  (forall response, fetch q = Resolved response -> Tool.ok response = false ->
     Tool.plausible_query_handler pf Json JSON_stringify fetch response_json q
     = Ok ("Error querying Plausible API: Plausible API error: " ++ Tool.statusText response))
  /\ (forall err, fetch q = Rejected err ->
     Tool.plausible_query_handler pf Json JSON_stringify fetch response_json q
     = Ok ("Error querying Plausible API: " ++ thrown_message err)).
Proof.
  intros H. unfold Tool.plausible_query_handler, Tool.executeQuery, Tool.PlausibleClient_query.
  rewrite H. cbn [bind]. split.
  - intros r Hf Hok. rewrite Hf, Hok. reflexivity.
  - intros err Hf. rewrite Hf. reflexivity.
Qed.

Lemma handler_api_failure_reply_witness :
  Tool.plausible_query_handler (fun _ => None) unit (fun _ => "{}")
    (fun _ => Resolved (Tool.mkResponse false "Unauthorized")) (fun _ => Resolved tt)
    (Tool.mkQuery "a.com" ["visitors"] (DRString "7d") None None None None None)
  = Ok ("Error querying Plausible API: Plausible API error: " ++ "Unauthorized").
Proof.
  apply (proj1 (handler_api_failure_reply (fun _ => None) unit (fun _ => "{}")
    (fun _ => Resolved (Tool.mkResponse false "Unauthorized")) (fun _ => Resolved tt)
    (Tool.mkQuery "a.com" ["visitors"] (DRString "7d") None None None None None)
    eq_refl) (Tool.mkResponse false "Unauthorized") eq_refl eq_refl).
Defined.

Lemma obj_get_set_same (o : Api.obj) (k : string) (v : Api.json) :
  Api.obj_get (Api.obj_set o k v) k = Some v.
Proof.
  induction o as [|[k' v'] o IH]; cbn; [now rewrite String.eqb_refl|].
  destruct (String.eqb_spec k' k); cbn; [now rewrite String.eqb_refl|].
  destruct (String.eqb_spec k' k); [contradiction|exact IH].
Qed.

Lemma obj_get_set_other (o : Api.obj) (k k' : string) (v : Api.json) :
  k <> k' -> Api.obj_get (Api.obj_set o k v) k' = Api.obj_get o k'.
Proof.
  intros Hk. induction o as [|[k0 v0] o IH]; cbn.
  - destruct (String.eqb_spec k k'); [contradiction|reflexivity].
  - destruct (String.eqb_spec k0 k) as [->|]; cbn.
    + destruct (String.eqb_spec k k'); [contradiction|reflexivity].
    + destruct (String.eqb_spec k0 k'); [reflexivity|exact IH].
Qed.

Lemma fold_set_other (props : list (string * Api.json)) (o : Api.obj) (k : string) :
  ~ In k (map fst props) ->
  Api.obj_get (fold_left (fun o kv => Api.obj_set o (fst kv) (snd kv)) props o) k = Api.obj_get o k.
Proof.
  revert o. induction props as [|[k' v'] props IH]; intros o Hk; [reflexivity|].
  cbn [fold_left fst snd]. cbn [map fst In] in Hk.
  rewrite IH by tauto. apply obj_get_set_other. intros ->. tauto.
Qed.

(** [o.k] on the object a JSON text denotes is the value of the last
    member named [k]. *)
Lemma json_object_last (p1 p2 : list (string * Api.json)) (k : string) (v : Api.json) :
  ~ In k (map fst p2) ->
  Api.obj_get (Api.json_object (p1 ++ (k, v) :: p2)%list) k = Some v.
Proof.
  intros H. unfold Api.json_object. rewrite fold_left_app. cbn [fold_left fst snd].
  rewrite fold_set_other by exact H. apply obj_get_set_same.
Qed.

Lemma json_object_absent (props : list (string * Api.json)) (k : string) :
  ~ In k (map fst props) -> Api.obj_get (Api.json_object props) k = None.
Proof. intros H. unfold Api.json_object. now rewrite fold_set_other. Qed.

Lemma without_debug_get (q : Api.obj) (k : string) :
  Api.obj_get (Api.without_debug q) k = if String.eqb k "debug" then None else Api.obj_get q k.
Proof.
  induction q as [|[k' v'] q IH]; [cbn; now destruct (String.eqb k "debug")|].
  change (Api.without_debug ((k', v') :: q))
    with (if negb (String.eqb k' "debug") then (k', v') :: Api.without_debug q
          else Api.without_debug q).
  destruct (String.eqb_spec k' "debug") as [->|Hd]; cbn [negb].
  - rewrite IH. destruct (String.eqb_spec k "debug") as [E|E]; [reflexivity|].
    cbn [Api.obj_get]. destruct (String.eqb_spec "debug" k); [congruence|reflexivity].
  - cbn [Api.obj_get]. destruct (String.eqb_spec k' k) as [E|E]; [subst k'|exact IH].
    destruct (String.eqb_spec k "debug"); [contradiction|reflexivity].
Qed.

(** X9: on an ok response, [executeQuery] of [api.ts] resolves to the
    response body's properties with [query] set to the query it sent: the
    request without its [debug] property. *)
Theorem api_success_result (JSON_parse : string -> option Api.json)
    (JSON_stringify : Api.json -> string) (fetch : string -> outcome Api.ApiResponse)
    (query : Api.obj) (response : Api.ApiResponse) (data : Api.json) :
  fetch (JSON_stringify (Api.JSObj (Api.without_debug query))) = Resolved response ->
  Api.ok response = true ->
  Api.body_json response = Resolved data ->
  exists o, Api.executeQuery JSON_parse JSON_stringify fetch query = Resolved o
    /\ Api.obj_get o "query" = Some (Api.JSObj (Api.without_debug query))
    /\ (forall k, k <> "query" -> Api.obj_get o k = Api.obj_get (Api.own_props data) k)
    /\ Api.obj_get (Api.without_debug query) "debug" = None
    /\ (forall k, k <> "debug" -> Api.obj_get (Api.without_debug query) k = Api.obj_get query k).
Proof.
  intros Hf Hok Hb. unfold Api.executeQuery. rewrite Hf, Hok, Hb. cbn.
  eexists. split; [reflexivity|]. split; [apply obj_get_set_same|].
  split; [intros k Hk; apply obj_get_set_other; congruence|].
  split; [rewrite without_debug_get; reflexivity|].
  intros k Hk. rewrite without_debug_get. destruct (String.eqb_spec k "debug"); [contradiction|reflexivity].
Qed.

Lemma api_success_result_witness :
  exists o, Api.executeQuery (fun _ => None) (fun _ => "body")
      (fun _ => Resolved (Api.mkApiResponse 200 true (Resolved "")
                  (Resolved (Api.JSObj [("results", Api.JSArr []); ("query", Api.JSNull)]))))
      [("site_id", Api.JSStr "a.com"); ("debug", Api.JSBool true)] = Resolved o
    /\ Api.obj_get o "query" = Some (Api.JSObj (Api.without_debug [("site_id", Api.JSStr "a.com"); ("debug", Api.JSBool true)]))
    /\ (forall k, k <> "query" -> Api.obj_get o k
          = Api.obj_get (Api.own_props (Api.JSObj [("results", Api.JSArr []); ("query", Api.JSNull)])) k)
    /\ Api.obj_get (Api.without_debug [("site_id", Api.JSStr "a.com"); ("debug", Api.JSBool true)]) "debug" = None
    /\ (forall k, k <> "debug" -> Api.obj_get (Api.without_debug [("site_id", Api.JSStr "a.com"); ("debug", Api.JSBool true)]) k
          = Api.obj_get [("site_id", Api.JSStr "a.com"); ("debug", Api.JSBool true)] k).
Proof.
  apply (api_success_result (fun _ => None) (fun _ => "body")
    (fun _ => Resolved (Api.mkApiResponse 200 true (Resolved "")
                (Resolved (Api.JSObj [("results", Api.JSArr []); ("query", Api.JSNull)]))))
    [("site_id", Api.JSStr "a.com"); ("debug", Api.JSBool true)]
    (Api.mkApiResponse 200 true (Resolved "")
       (Resolved (Api.JSObj [("results", Api.JSArr []); ("query", Api.JSNull)])))
    (Api.JSObj [("results", Api.JSArr []); ("query", Api.JSNull)])); reflexivity.
Defined.

Lemma rethrow_never_value {A : Type} (r : outcome A) (v : jval) :
  Api.rethrow r <> Rejected (ThrownValue v).
Proof. destruct r as [a|[m|w]]; cbn; discriminate. Qed.

(** X10: [executeQuery] of [api.ts] never rejects with anything but an
    [Error]. *)
Theorem api_rejects_only_with_errors (JSON_parse : string -> option Api.json)
    (JSON_stringify : Api.json -> string) (fetch : string -> outcome Api.ApiResponse)
    (query : Api.obj) (v : jval) :
  Api.executeQuery JSON_parse JSON_stringify fetch query <> Rejected (ThrownValue v).
Proof. apply rethrow_never_value. Qed.

(** X11: on a response that is not ok, when its body parses to an object
    whose last [error] member is not the empty string, [executeQuery]
    rejects with an [Error] whose message is that member as a string. *)
Theorem api_error_member_message (JSON_parse : string -> option Api.json)
    (JSON_stringify : Api.json -> string) (fetch : string -> outcome Api.ApiResponse)
    (query : Api.obj) (response : Api.ApiResponse) (t : string)
    (p1 p2 : list (string * Api.json)) (e : Api.json) :
  fetch (JSON_stringify (Api.JSObj (Api.without_debug query))) = Resolved response ->
  Api.ok response = false ->
  Api.text response = Resolved t ->
  JSON_parse t = Some (Api.JSObj (p1 ++ ("error", e) :: p2)%list) ->
  ~ In "error" (map fst p2) ->
  e <> Api.JSStr "" ->
  Api.executeQuery JSON_parse JSON_stringify fetch query
  = Rejected (ThrownError (Api.json_to_string e)).
Proof.
  intros Hf Hok Ht Hp Hn He. unfold Api.executeQuery. rewrite Hf, Hok, Ht. cbn [negb Api.rethrow].
  unfold Api.errorMessage_of. rewrite Hp. cbn [Api.json_get].
  rewrite json_object_last by exact Hn.
  destruct e as [| | |s| |]; try reflexivity.
  destruct (String.eqb_spec s ""); [congruence|reflexivity].
Qed.

Lemma api_error_member_message_witness :
  Api.executeQuery
    (fun _ => Some (Api.JSObj [("error", Api.JSStr "first"); ("error", Api.JSStr "Invalid site")]))
    (fun _ => "body")
    (fun _ => Resolved (Api.mkApiResponse 400 false (Resolved "{...}") (Rejected (ThrownValue JNull))))
    [] = Rejected (ThrownError "Invalid site").
Proof.
  apply (api_error_member_message
    (fun _ => Some (Api.JSObj [("error", Api.JSStr "first"); ("error", Api.JSStr "Invalid site")]))
    (fun _ => "body")
    (fun _ => Resolved (Api.mkApiResponse 400 false (Resolved "{...}") (Rejected (ThrownValue JNull))))
    [] (Api.mkApiResponse 400 false (Resolved "{...}") (Rejected (ThrownValue JNull))) "{...}"
    [("error", Api.JSStr "first")] [] (Api.JSStr "Invalid site")); try reflexivity.
  - cbn. tauto.
  - discriminate.
Defined.

(** X12: on a response that is not ok and whose body gives no usable
    [error] member, [executeQuery] rejects with the body text, or with
    [API request failed with status <status>] when the body is empty or
    parses to a value that is not [null]. *)
Theorem api_error_fallback_message (JSON_parse : string -> option Api.json)
    (JSON_stringify : Api.json -> string) (fetch : string -> outcome Api.ApiResponse)
    (query : Api.obj) (response : Api.ApiResponse) (t : string) :
  fetch (JSON_stringify (Api.JSObj (Api.without_debug query))) = Resolved response ->
  Api.ok response = false ->
  Api.text response = Resolved t ->
  let default := ("API request failed with status " ++ Z_to_dec (Api.status response))%string in
  ((JSON_parse t = None \/ JSON_parse t = Some Api.JSNull) ->
   Api.executeQuery JSON_parse JSON_stringify fetch query
   = Rejected (ThrownError (if String.eqb t "" then default else t)))
  /\ (forall v, JSON_parse t = Some v ->
      match v with
      | Api.JSNull => False
      | Api.JSObj props =>
          ~ In "error" (map fst props)
          \/ exists p1 p2, props = (p1 ++ ("error", Api.JSStr "") :: p2)%list /\ ~ In "error" (map fst p2)
      | _ => True
      end ->
      Api.executeQuery JSON_parse JSON_stringify fetch query = Rejected (ThrownError default)).
Proof.
  intros Hf Hok Ht default. unfold Api.executeQuery. rewrite Hf, Hok, Ht. cbn [negb Api.rethrow].
  unfold Api.errorMessage_of. split.
  - intros [Hp|Hp]; rewrite Hp; cbn [Api.json_get];
      destruct (String.eqb t ""); reflexivity.
  - intros v Hp Hv. rewrite Hp.
    destruct v as [| | | | |props]; try contradiction; try reflexivity.
    cbn [Api.json_get]. destruct Hv as [Hn|[p1 [p2 [-> Hn]]]].
    + rewrite json_object_absent by exact Hn. reflexivity.
    + rewrite json_object_last by exact Hn. reflexivity.
Qed.

Lemma api_error_fallback_message_witness :
  Api.executeQuery (fun _ => None) (fun _ => "body")
    (fun _ => Resolved (Api.mkApiResponse 502 false (Resolved "Bad Gateway") (Rejected (ThrownValue JNull))))
    [] = Rejected (ThrownError "Bad Gateway")
  /\ Api.executeQuery (fun _ => Some (Api.JSObj [("message", Api.JSStr "x")])) (fun _ => "body")
    (fun _ => Resolved (Api.mkApiResponse 400 false (Resolved "{...}") (Rejected (ThrownValue JNull))))
    [] = Rejected (ThrownError "API request failed with status 400").
Proof.
  split.
  - apply (proj1 (api_error_fallback_message (fun _ => None) (fun _ => "body")
      (fun _ => Resolved (Api.mkApiResponse 502 false (Resolved "Bad Gateway") (Rejected (ThrownValue JNull))))
      [] (Api.mkApiResponse 502 false (Resolved "Bad Gateway") (Rejected (ThrownValue JNull)))
      "Bad Gateway" eq_refl eq_refl eq_refl)).
    left. reflexivity.
  - apply (proj2 (api_error_fallback_message (fun _ => Some (Api.JSObj [("message", Api.JSStr "x")]))
      (fun _ => "body")
      (fun _ => Resolved (Api.mkApiResponse 400 false (Resolved "{...}") (Rejected (ThrownValue JNull))))
      [] (Api.mkApiResponse 400 false (Resolved "{...}") (Rejected (ThrownValue JNull)))
      "{...}" eq_refl eq_refl eq_refl) (Api.JSObj [("message", Api.JSStr "x")]) eq_refl).
    left. cbn. intros [H|H]; [discriminate|exact H].
Defined.

(** X13: the search of [part_003] over two lists in sequence searches the
    first and reads the second only when the first has no match: a match
    stops it before any malformed filter that follows. *)
Theorem legacy_search_app (fs1 fs2 : list jval) (d : string) :
  Legacy.hasFilterForDimension (JArr (fs1 ++ fs2)%list) d
  = (let* b := Legacy.hasFilterForDimension (JArr fs1) d in
     if b then Ok true else Legacy.hasFilterForDimension (JArr fs2) d).
Proof.
  induction fs1 as [|f fs1 IH]; [reflexivity|].
  cbn [app]. rewrite !legacy_hasFilter_cons.
  destruct (Legacy.checkSingleFilter f d) as [[|]|e]; cbn [bind]; [reflexivity|exact IH|reflexivity].
Qed.
